(** * VPS deployer: the VM lifecycle layer, embedded and verified

    A shallow embedding of the Python sources

    - [config.py]                      ([Settings])
    - [models/database.py]             (the [VM], [Backup] and [Deployment] rows)
    - [proxmox/proxmox_client.py]      ([ProxmoxClient], the gateway)
    - [discord_bot/bot.py]             ([is_admin], [has_permission])
    - [discord_bot/cogs/vm_management.py], [discord_bot/cogs/backup_management.py]

    Python values that cross the HTTP boundary are dynamically typed, so
    they are embedded as [json]; exceptions are a sum type; every coroutine
    is a [Task], a finite tree whose nodes are the suspension points
    ([await]) of the coroutine. *)

From Stdlib Require Import ZArith List String Bool Lia DecimalString.
Import ListNotations.
Open Scope string_scope.
Open Scope list_scope.
Open Scope Z_scope.

(** ** Python values *)

#[local] Set Warnings "-register-all".

Inductive json : Type :=
| JNull
| JBool (b : bool)
| JNum (n : Z)
| JStr (s : string)
| JArr (items : list json)
| JObj (fields : list (string * json)).

(** The exceptions the modelled code can raise. *)
Inductive PyExc : Type :=
| NotConnected                     (* Exception("Not connected to Proxmox") *)
| ApiRequestFailed (error_msg : json) (* Exception(f"API request failed: {error_msg}") *)
| AuthenticationFailed (status : Z)   (* Exception(f"Authentication failed: {status}") *)
| ClientError                      (* aiohttp: connection refused, TLS failure, timeout *)
| JSONDecodeError                  (* the response body is not JSON *)
| AttributeError (attr : string)
| KeyError (key : string)
| IndexError
| TypeError
| RuntimeError.                    (* aiohttp: "Session is closed" *)

Inductive Res (A : Type) : Type :=
| Ok (a : A)
| Raise (e : PyExc).
Arguments Ok {A} a.
Arguments Raise {A} e.

Definition res_bind {A B} (r : Res A) (f : A -> Res B) : Res B :=
  match r with
  | Ok a => f a
  | Raise e => Raise e
  end.

(** [str(n)] for a Python int. *)
Definition str_int (n : Z) : string := NilZero.string_of_int (Z.to_int n).

(** An f-string that interpolates a dynamically typed value is kept as
    its list of segments. *)
Inductive Seg : Type :=
| Lit (s : string)
| Fmt (v : json).

Definition fstring := list Seg.

(** [bool(v)] *)
Definition truthy (v : json) : bool :=
  match v with
  | JNull => false
  | JBool b => b
  | JNum n => negb (n =? 0)
  | JStr s => negb (String.eqb s "")
  | JArr items => match items with [] => false | _ => true end
  | JObj fields => match fields with [] => false | _ => true end
  end.

Fixpoint dict_lookup {V} (d : list (string * V)) (k : string) : option V :=
  match d with
  | [] => None
  | (k', v) :: d' => if String.eqb k' k then Some v else dict_lookup d' k
  end.

(** [d[k] = v] on a dict: the key keeps its place when present. *)
Fixpoint dict_set {V} (d : list (string * V)) (k : string) (v : V) : list (string * V) :=
  match d with
  | [] => [(k, v)]
  | (k', v') :: d' => if String.eqb k' k then (k, v) :: d' else (k', v') :: dict_set d' k v
  end.

(** [v.get(k, default)] *)
Definition py_get (v : json) (k : string) (default : json) : Res json :=
  match v with
  | JObj fields =>
      match dict_lookup fields k with
      | Some x => Ok x
      | None => Ok default
      end
  | _ => Raise (AttributeError "get")
  end.

(** [v[k]] with a string key *)
Definition py_getitem (v : json) (k : string) : Res json :=
  match v with
  | JObj fields =>
      match dict_lookup fields k with
      | Some x => Ok x
      | None => Raise (KeyError k)
      end
  | _ => Raise TypeError
  end.

(** [v[k] = x] with a string key *)
Definition py_setitem (v : json) (k : string) (x : json) : Res json :=
  match v with
  | JObj fields => Ok (JObj (dict_set fields k x))
  | _ => Raise TypeError
  end.

Fixpoint chars (s : string) : list json :=
  match s with
  | EmptyString => []
  | String c s' => JStr (String c EmptyString) :: chars s'
  end.

(** [v[0]] *)
Definition py_first (v : json) : Res json :=
  match v with
  | JArr [] => Raise IndexError
  | JArr (x :: _) => Ok x
  | JStr s => match chars s with [] => Raise IndexError | c :: _ => Ok c end
  | JObj _ => Raise (KeyError "0")
  | _ => Raise TypeError
  end.

(** [iter(v)]: the items a [for] loop visits. *)
Definition py_iter (v : json) : Res (list json) :=
  match v with
  | JArr items => Ok items
  | JObj fields => Ok (map (fun kv => JStr (fst kv)) fields)
  | JStr s => Ok (chars s)
  | _ => Raise TypeError
  end.

(** [len(v)] *)
Definition py_len (v : json) : Res Z :=
  match v with
  | JArr items => Ok (Z.of_nat (List.length items))
  | JObj fields => Ok (Z.of_nat (List.length fields))
  | JStr s => Ok (Z.of_nat (String.length s))
  | _ => Raise TypeError
  end.

(** A value used as a number: Python's [bool] is a subclass of [int]. *)
Definition as_int (v : json) : Res Z :=
  match v with
  | JNum n => Ok n
  | JBool b => Ok (if b then 1 else 0)
  | _ => Raise TypeError
  end.

(** [v == n] for an int [n], and [v == s] for a str [s]. *)
Definition py_eq_int (v : json) (n : Z) : bool :=
  match v with
  | JNum m => m =? n
  | JBool b => (if b then 1 else 0) =? n
  | _ => false
  end.

Definition py_eq_str (v : json) (s : string) : bool :=
  match v with
  | JStr t => String.eqb t s
  | _ => false
  end.

(** ** config.py *)

Record Settings : Type := {
  default_storage : string;
  default_network_bridge : string;
  admin_user_ids : list Z;
  allowed_roles : list string;
  max_vms_per_user : Z;
  available_templates : list (string * list (string * json))
}.

Definition os_template (name file : string) (min_memory min_disk : Z) (user : string)
  : list (string * json) :=
  [("name", JStr name); ("template", JStr file); ("min_memory", JNum min_memory);
   ("min_cores", JNum 1); ("min_disk", JNum min_disk); ("default_user", JStr user);
   ("ssh_port", JNum 22)].

(** The field defaults of [Settings]. *)
Definition settings : Settings := {|
  default_storage := "local-lvm";
  default_network_bridge := "vmbr0";
  admin_user_ids := [];
  allowed_roles := ["VPS Manager"];
  max_vms_per_user := 5;
  available_templates :=
    [("ubuntu-22.04", os_template "Ubuntu 22.04 LTS"
        "ubuntu-22.04-standard_22.04-1_amd64.tar.zst" 1024 20 "ubuntu");
     ("ubuntu-20.04", os_template "Ubuntu 20.04 LTS"
        "ubuntu-20.04-standard_20.04-1_amd64.tar.zst" 1024 20 "ubuntu");
     ("debian-12", os_template "Debian 12 (Bookworm)"
        "debian-12-standard_12.0-1_amd64.tar.zst" 1024 20 "debian");
     ("debian-11", os_template "Debian 11 (Bullseye)"
        "debian-11-standard_11.7-1_amd64.tar.zst" 1024 20 "debian");
     ("centos-8", os_template "CentOS 8 Stream"
        "centos-8-standard_8-1_amd64.tar.zst" 1024 20 "centos");
     ("alpine-3.18", os_template "Alpine Linux 3.18"
        "alpine-3.18-standard_3.18.4-1_amd64.tar.zst" 512 10 "root")]
|}.

(** ** discord_bot/bot.py: permissions *)

Record Member : Type := {
  user_id : Z;
  roles : list string
}.

Definition is_admin (cfg : Settings) (uid : Z) : bool :=
  existsb (Z.eqb uid) (admin_user_ids cfg).

Definition has_permission (cfg : Settings) (user : Member) : bool :=
  if is_admin cfg (user_id user) then true
  else existsb (fun role_name => existsb (fun role => String.eqb role role_name) (roles user))
               (allowed_roles cfg).

(** ** models/database.py: the rows *)

Module VM.
Record row : Type := {
  id : Z;
  vm_id : json;               (* Proxmox VM ID, as handed over by the caller *)
  name : string;
  status : string;
  template : string;
  memory : Z;
  cores : Z;
  disk_size : Z;
  owner_id : Z;
  node : json;
  storage : string;
  network_bridge : string;
  proxmox_config : json
}.

Definition set_status (s : string) (r : row) : row :=
  {| id := id r; vm_id := vm_id r; name := name r; status := s; template := template r;
     memory := memory r; cores := cores r; disk_size := disk_size r; owner_id := owner_id r;
     node := node r; storage := storage r; network_bridge := network_bridge r;
     proxmox_config := proxmox_config r |}.

Definition set_disk_size (n : Z) (r : row) : row :=
  {| id := id r; vm_id := vm_id r; name := name r; status := status r; template := template r;
     memory := memory r; cores := cores r; disk_size := n; owner_id := owner_id r;
     node := node r; storage := storage r; network_bridge := network_bridge r;
     proxmox_config := proxmox_config r |}.
End VM.

Module Backup.
Record row : Type := {
  backup_id : string;
  vm_id : Z;
  backup_type : string;
  status : string;
  backup_data : json
}.
End Backup.

Module Deployment.
Inductive Status : Type := pending | in_progress | completed | failed.

(** The strings stored in the [status] column. *)
Definition status_name (s : Status) : string :=
  match s with
  | pending => "pending"
  | in_progress => "in_progress"
  | completed => "completed"
  | failed => "failed"
  end.

Record row : Type := {
  deployment_id : string;
  status : Status;
  deployment_type : string;
  progress : Z;
  error_message : option string;
  user_id : Z;
  vm_id : option Z;
  deployment_data : json
}.
End Deployment.

(** The dict a cog hands to [create_vm]. *)
Record vm_data : Type := {
  d_vm_id : json;
  d_name : string;
  d_template : string;
  d_memory : Z;
  d_cores : Z;
  d_disk_size : Z;
  d_node : json;
  d_storage : string;
  d_network_bridge : string;
  d_proxmox_config : json
}.

(** ** utils/database.py: the registry *)

(** Modelled from the spec: [DatabaseManager] is imported by [bot.py] from
    [utils/database.py], which is not among the sources; its tables and the
    operations the cogs call follow section 4.2 (lookups whose absence is a
    normal not-found result, narrow field mutators keyed by the hypervisor
    id, [create] persisting the row in [stopped] status).  Its methods carry
    the prefix [db_]: [create_vm] and [create_backup] are also the names of
    gateway methods. *)
Record DatabaseManager : Type := {
  vms : list VM.row;
  backups : list Backup.row;
  backup_schedules : list (Z * json)
}.

(** Modelled from the spec: [get_by_id(internal_id)]. *)
Definition db_get_vm_by_id (db : DatabaseManager) (vmid : Z) : option VM.row :=
  find (fun r => VM.id r =? vmid) (vms db).

(** Modelled from the spec: [list_by_owner(owner)]. *)
Definition db_get_user_vms (db : DatabaseManager) (owner : Z) : list VM.row :=
  filter (fun r => VM.owner_id r =? owner) (vms db).

(** Modelled from the spec: the next value of the autoincrement key. *)
Definition db_next_id (db : DatabaseManager) : Z :=
  1 + fold_right (fun r m => Z.max (VM.id r) m) 0 (vms db).

(** Modelled from the spec: [create(owner, spec)], the row persisted in
    [stopped] status with the configuration payload attached. *)
Definition db_create_vm (owner : Z) (d : vm_data) (db : DatabaseManager) : DatabaseManager :=
  {| vms := vms db ++
       [{| VM.id := db_next_id db; VM.vm_id := d_vm_id d; VM.name := d_name d;
           VM.status := "stopped"; VM.template := d_template d; VM.memory := d_memory d;
           VM.cores := d_cores d; VM.disk_size := d_disk_size d; VM.owner_id := owner;
           VM.node := d_node d; VM.storage := d_storage d;
           VM.network_bridge := d_network_bridge d;
           VM.proxmox_config := d_proxmox_config d |}];
     backups := backups db;
     backup_schedules := backup_schedules db |}.

(** Modelled from the spec: a field mutator reaches the rows whose
    hypervisor id is [vmid]. *)
Definition db_map_vm (vmid : Z) (f : VM.row -> VM.row) (db : DatabaseManager) : DatabaseManager :=
  {| vms := map (fun r => if py_eq_int (VM.vm_id r) vmid then f r else r) (vms db);
     backups := backups db;
     backup_schedules := backup_schedules db |}.

(** Modelled from the spec: [update_status(vmid, status)]. *)
Definition db_update_vm_status (vmid : Z) (s : string) : DatabaseManager -> DatabaseManager :=
  db_map_vm vmid (VM.set_status s).

(** Modelled from the spec: [update_disk_size(vmid, new_size)]. *)
Definition db_update_vm_disk_size (vmid : Z) (n : Z) : DatabaseManager -> DatabaseManager :=
  db_map_vm vmid (VM.set_disk_size n).

(** Modelled from the spec: [delete(internal_id)]. *)
Definition db_delete_vm (vmid : Z) (db : DatabaseManager) : DatabaseManager :=
  {| vms := filter (fun r => negb (VM.id r =? vmid)) (vms db);
     backups := backups db;
     backup_schedules := backup_schedules db |}.

(** Modelled from the spec: the backup rows, added and removed by name. *)
Definition db_create_backup (b : Backup.row) (db : DatabaseManager) : DatabaseManager :=
  {| vms := vms db; backups := backups db ++ [b]; backup_schedules := backup_schedules db |}.

(** Modelled from the spec: the removal of the backup row of that name. *)
Definition db_delete_backup (volid : json) (db : DatabaseManager) : DatabaseManager :=
  {| vms := vms db;
     backups := filter (fun b => negb (py_eq_str volid (Backup.backup_id b))) (backups db);
     backup_schedules := backup_schedules db |}.

(** Modelled from the spec: one schedule per VM, [None] when there is none. *)
Definition db_get_backup_schedule (db : DatabaseManager) (vmid : Z) : json :=
  match find (fun kv => fst kv =? vmid) (backup_schedules db) with
  | Some kv => snd kv
  | None => JNull
  end.


(** ** The world a coroutine runs in *)

Inductive Body : Type :=
| NoBody
| JsonBody (j : json)    (* [json=...] *)
| FormBody (j : json).   (* [data=...] *)

Record Request : Type := {
  rq_method : string;
  rq_url : fstring;
  rq_headers : list (string * fstring);
  rq_body : Body
}.

(** What [session.request] yields: an exception of the transport, or a
    status with a body that may or may not parse as JSON. *)
Inductive Response : Type :=
| TransportFailure
| HttpResponse (status : Z) (body : option json).

(** [self.session]: [None], an open aiohttp session, or a closed one. *)
Inductive Session : Type :=
| SessionNone
| SessionOpen
| SessionClosed.

(** The fields of [ProxmoxClient]. *)
Record ProxmoxClient : Type := {
  host : string;
  user : string;
  password : string;
  realm : string;
  api : bool;
  session : Session;
  _auth_ticket : json;
  _auth_csrf : json
}.

(** [ProxmoxClient.__init__] *)
Definition ProxmoxClient_init (h u p r : string) : ProxmoxClient :=
  {| host := h; user := u; password := p; realm := r; api := false; session := SessionNone;
     _auth_ticket := JNull; _auth_csrf := JNull |}.

(** The hypervisor is seen only through the requests sent to it: [remote n rq]
    is its answer to [rq] when [n] requests were sent before, and
    [http_log] lists the requests sent, oldest first.  The hypervisor changes
    only by a request, so an unchanged log is an unchanged hypervisor. *)
Record World : Type := {
  proxmox : ProxmoxClient;
  database : DatabaseManager;
  remote : nat -> Request -> Response;
  http_log : list Request
}.

Definition with_database (f : DatabaseManager -> DatabaseManager) (w : World) : World :=
  {| proxmox := proxmox w; database := f (database w); remote := remote w;
     http_log := http_log w |}.

Definition with_proxmox (f : ProxmoxClient -> ProxmoxClient) (w : World) : World :=
  {| proxmox := f (proxmox w); database := database w; remote := remote w;
     http_log := http_log w |}.

(** Sending a request: the answer, and the world with the request logged. *)
Definition send (rq : Request) (w : World) : Response * World :=
  (remote w (List.length (http_log w)) rq,
   {| proxmox := proxmox w; database := database w; remote := remote w;
      http_log := http_log w ++ [rq] |}).

(** ** Coroutines

    A [Task] is a coroutine unfolded into its suspension points: [Await step k]
    runs [step] atomically on the world (the synchronous code up to and
    including one awaited call) and resumes with [k]. *)
Inductive Task (A : Type) : Type :=
| Done (r : Res A)
| Await {X : Type} (step : World -> Res X * World) (k : Res X -> Task A).
Arguments Done {A} r.
Arguments Await {A X} step k.

Definition ret {A} (a : A) : Task A := Done (Ok a).
Definition raise {A} (e : PyExc) : Task A := Done (Raise e).
Definition await {A} (step : World -> Res A * World) : Task A := Await step Done.

Fixpoint bind {A B} (t : Task A) (f : A -> Task B) : Task B :=
  match t with
  | Done (Ok a) => f a
  | Done (Raise e) => Done (Raise e)
  | Await step k => Await step (fun r => bind (k r) f)
  end.

(** [try: t  except Exception as e: h e] *)
Fixpoint try_except {A} (t : Task A) (h : PyExc -> Task A) : Task A :=
  match t with
  | Done (Ok a) => Done (Ok a)
  | Done (Raise e) => h e
  | Await step k => Await step (fun r => try_except (k r) h)
  end.

Notation "x <- t ;; k" := (bind t (fun x => k))
  (at level 61, t at next level, right associativity).
Notation "'do' t ;; k" := (bind t (fun _ => k))
  (at level 61, t at next level, right associativity).

(** Running one coroutine alone, to its end. *)
Fixpoint run {A} (t : Task A) (w : World) : Res A * World :=
  match t with
  | Done r => (r, w)
  | Await step k => let (r, w') := step w in run (k r) w'
  end.

(** A database call. *)
Definition db_read {A} (f : DatabaseManager -> A) : Task A :=
  await (fun w => (Ok (f (database w)), w)).

Definition db_write (f : DatabaseManager -> DatabaseManager) : Task unit :=
  await (fun w => (Ok tt, with_database f w)).

(** ** proxmox/proxmox_client.py *)

Definition lift {A} (r : Res A) : Task A := Done r.

Definition set_session (s : Session) (c : ProxmoxClient) : ProxmoxClient :=
  {| host := host c; user := user c; password := password c; realm := realm c;
     api := api c; session := s; _auth_ticket := _auth_ticket c;
     _auth_csrf := _auth_csrf c |}.

Definition set_api (c : ProxmoxClient) : ProxmoxClient :=
  {| host := host c; user := user c; password := password c; realm := realm c;
     api := true; session := session c; _auth_ticket := _auth_ticket c;
     _auth_csrf := _auth_csrf c |}.

Definition set_auth_ticket (v : json) (c : ProxmoxClient) : ProxmoxClient :=
  {| host := host c; user := user c; password := password c; realm := realm c;
     api := api c; session := session c; _auth_ticket := v; _auth_csrf := _auth_csrf c |}.

Definition set_auth_csrf (v : json) (c : ProxmoxClient) : ProxmoxClient :=
  {| host := host c; user := user c; password := password c; realm := realm c;
     api := api c; session := session c; _auth_ticket := _auth_ticket c; _auth_csrf := v |}.

Definition auth_request (c : ProxmoxClient) : Request :=
  {| rq_method := "POST";
     rq_url := [Lit "https://"; Lit (host c); Lit ":8006/api2/json/access/ticket"];
     rq_headers := [];
     rq_body := FormBody (JObj [("username", JStr (user c ++ "@" ++ realm c)%string);
                                ("password", JStr (password c))]) |}.

(** The one suspension point of [_authenticate]: the ticket is stored
    before the token is looked up. *)
Definition authenticate_step (w : World) : Res unit * World :=
  match session (proxmox w) with
  | SessionNone => (Raise (AttributeError "post"), w)
  | SessionClosed => (Raise RuntimeError, w)
  | SessionOpen =>
      let (resp, w1) := send (auth_request (proxmox w)) w in
      match resp with
      | TransportFailure => (Raise ClientError, w1)
      | HttpResponse st body =>
          if st =? 200 then
            match body with
            | None => (Raise JSONDecodeError, w1)
            | Some auth_result =>
                match res_bind (py_getitem auth_result "data")
                               (fun d => py_getitem d "ticket") with
                | Raise e => (Raise e, w1)
                | Ok ticket =>
                    let w2 := with_proxmox (set_auth_ticket ticket) w1 in
                    match res_bind (py_getitem auth_result "data")
                                   (fun d => py_getitem d "CSRFPreventionToken") with
                    | Raise e => (Raise e, w2)
                    | Ok csrf => (Ok tt, with_proxmox (set_auth_csrf csrf) w2)
                    end
                end
            end
          else (Raise (AuthenticationFailed st), w1)
      end
  end.

Definition _authenticate : Task unit := await authenticate_step.

(** [connect]: the session object exists from the moment it is created,
    whether or not the authentication that follows succeeds.  After the
    authentication comes [self.api = ProxmoxAPI(host, user=f"{user}@{realm}",
    password=..., verify_ssl=...)].  That constructor belongs to the
    proxmoxer package, which is not among the sources: it runs without
    suspending, may talk to the hypervisor on its own and may raise, so
    [connect] takes it as a parameter, a step on the world that gets the
    host, the qualified user and the password.  Whatever is raised is
    logged and raised again. *)
Definition connect (ProxmoxAPI : string -> string -> string -> World -> Res unit * World)
  : Task unit :=
  await (fun w =>
    match authenticate_step (with_proxmox (set_session SessionOpen) w) with
    | (Ok _, w1) =>
        let c := proxmox w1 in
        match ProxmoxAPI (host c) (user c ++ "@" ++ realm c)%string (password c) w1 with
        | (Ok _, w2) => (Ok tt, with_proxmox set_api w2)
        | (Raise e, w2) => (Raise e, w2)
        end
    | (Raise e, w1) => (Raise e, w1)
    end).

(** [disconnect]: closes the session when there is one; [self.session]
    keeps referring to the closed object. *)
Definition disconnect : Task unit :=
  await (fun w =>
    match session (proxmox w) with
    | SessionNone => (Ok tt, w)
    | _ => (Ok tt, with_proxmox (set_session SessionClosed) w)
    end).

(** The request that [_make_request] builds.  The ticket is formatted into
    the [Authorization] header, the token is passed as it is; what the
    transport makes of a token that is not a string is not modelled. *)
Definition api_request (c : ProxmoxClient) (method : string) (endpoint : fstring)
  (data : option json) : Request :=
  {| rq_method := method;
     rq_url := Lit "https://" :: Lit (host c) :: Lit ":8006/api2/json/" :: endpoint;
     rq_headers := [("Authorization", [Lit "PVEAPIToken="; Fmt (_auth_ticket c)]);
                    ("CSRFPreventionToken", [Fmt (_auth_csrf c)])];
     rq_body := match data with Some d => JsonBody d | None => NoBody end |}.

(** What [_make_request] makes of the answer to its one request. *)
Definition read_response (resp : Response) : Res json :=
  match resp with
  | TransportFailure => Raise ClientError
  | HttpResponse st None => Raise JSONDecodeError
  | HttpResponse st (Some result) =>
      if st =? 200 then Ok result
      else
        res_bind (py_get result "errors" (JObj [])) (fun errors =>
        res_bind (py_get errors "message" (JStr "Unknown error")) (fun error_msg =>
        Raise (ApiRequestFailed error_msg)))
  end.

(** [_make_request]: one request; whatever it raises is logged and raised
    again. *)
Definition _make_request (method : string) (endpoint : fstring) (data : option json)
  : Task json :=
  await (fun w =>
    match session (proxmox w) with
    | SessionNone => (Raise NotConnected, w)
    | SessionClosed => (Raise RuntimeError, w)
    | SessionOpen =>
        let (resp, w') := send (api_request (proxmox w) method endpoint data) w in
        (read_response resp, w')
    end).

(** [result.get("data", default)] after a request. *)
Definition request_data (method : string) (endpoint : fstring) (data : option json)
  (default : json) : Task json :=
  result <- _make_request method endpoint data ;;
  lift (py_get result "data" default).

Definition vm_path (node : json) (vmid : Z) (rest : string) : fstring :=
  [Lit "nodes/"; Fmt node; Lit "/qemu/"; Fmt (JNum vmid); Lit rest].

(** *** Node management *)

Definition get_nodes : Task json :=
  request_data "GET" [Lit "nodes"] None (JArr []).

Definition get_node_status (node : json) : Task json :=
  request_data "GET" [Lit "nodes/"; Fmt node; Lit "/status"] None (JObj []).

Definition get_node_resources (node : json) : Task json :=
  request_data "GET" [Lit "nodes/"; Fmt node; Lit "/rrddata?timeframe=hour"] None (JObj []).

(** *** VM management *)

(** The inner loop of [get_vms]: each VM is tagged with its node and
    appended; an exception ends the loop with what was appended before. *)
Fixpoint tag_vms (node_name : json) (vms : list json) (all_vms : list json) : list json :=
  match vms with
  | [] => all_vms
  | vm :: rest =>
      match py_setitem vm "node" node_name with
      | Ok vm' => tag_vms node_name rest (all_vms ++ [vm'])
      | Raise _ => all_vms
      end
  end.

(** The outer loop of [get_vms] without a node: a failure of the request
    of one node, or in the loop over its VMs, is logged and skipped; a
    node entry without ["node"] is not. *)
Fixpoint collect_vms (nodes : list json) (all_vms : list json) : Task json :=
  match nodes with
  | [] => ret (JArr all_vms)
  | node_info :: rest =>
      node_name <- lift (py_getitem node_info "node") ;;
      all_vms' <- try_except
        (vms <- _make_request "GET" [Lit "nodes/"; Fmt node_name; Lit "/qemu"] None ;;
         data <- lift (py_get vms "data" (JArr [])) ;;
         items <- lift (py_iter data) ;;
         ret (tag_vms node_name items all_vms))
        (fun _ => ret all_vms) ;;
      collect_vms rest all_vms'
  end.

Definition get_vms (node : json) : Task json :=
  if truthy node then
    request_data "GET" [Lit "nodes/"; Fmt node; Lit "/qemu"] None (JArr [])
  else
    nodes <- get_nodes ;;
    node_list <- lift (py_iter nodes) ;;
    collect_vms node_list [].

Definition get_vm_config (node : json) (vmid : Z) : Task json :=
  request_data "GET" (vm_path node vmid "/config") None (JObj []).

Definition get_vm_status (node : json) (vmid : Z) : Task json :=
  request_data "GET" (vm_path node vmid "/status/current") None (JObj []).

Definition create_vm (node : json) (vmid : json) (config : json) : Task json :=
  request_data "POST" [Lit "nodes/"; Fmt node; Lit "/qemu"] (Some config) (JObj []).

(** [{**base, **config}] *)
Definition dict_merge (base config : list (string * json)) : list (string * json) :=
  fold_left (fun d kv => dict_set d (fst kv) (snd kv)) config base.

Definition clone_vm (node : json) (vmid : Z) (newid : json) (name : string)
  (config : list (string * json)) : Task json :=
  let clone_data := JObj (dict_merge [("newid", newid); ("name", JStr name)] config) in
  request_data "POST" (vm_path node vmid "/clone") (Some clone_data) (JObj []).

Definition start_vm (node : json) (vmid : Z) : Task json :=
  request_data "POST" (vm_path node vmid "/status/start") None (JObj []).

Definition stop_vm (node : json) (vmid : Z) : Task json :=
  request_data "POST" (vm_path node vmid "/status/stop") None (JObj []).

Definition shutdown_vm (node : json) (vmid : Z) : Task json :=
  request_data "POST" (vm_path node vmid "/status/shutdown") None (JObj []).

Definition reboot_vm (node : json) (vmid : Z) : Task json :=
  request_data "POST" (vm_path node vmid "/status/reboot") None (JObj []).

Definition delete_vm (node : json) (vmid : Z) : Task json :=
  request_data "DELETE" [Lit "nodes/"; Fmt node; Lit "/qemu/"; Fmt (JNum vmid)] None (JObj []).

Definition migrate_vm (node : json) (vmid : Z) (target_node : json)
  (config : list (string * json)) : Task json :=
  let migrate_data := JObj (dict_merge [("target", target_node)] config) in
  request_data "POST" (vm_path node vmid "/migrate") (Some migrate_data) (JObj []).

(** *** VM configuration *)

Definition update_vm_config (node : json) (vmid : Z) (config : json) : Task json :=
  request_data "PUT" (vm_path node vmid "/config") (Some config) (JObj []).

Definition resize_disk (node : json) (vmid : Z) (disk size : string) : Task json :=
  let resize_data := JObj [("disk", JStr disk); ("size", JStr size)] in
  request_data "PUT" (vm_path node vmid "/resize") (Some resize_data) (JObj []).

(** *** Snapshots *)

Definition create_snapshot (node : json) (vmid : Z) (snapname description : string)
  : Task json :=
  let snapshot_data := JObj [("snapname", JStr snapname); ("description", JStr description)] in
  request_data "POST" (vm_path node vmid "/snapshot") (Some snapshot_data) (JObj []).

Definition get_snapshots (node : json) (vmid : Z) : Task json :=
  request_data "GET" (vm_path node vmid "/snapshot") None (JArr []).

Definition restore_snapshot (node : json) (vmid : Z) (snapname : string) : Task json :=
  request_data "POST"
    [Lit "nodes/"; Fmt node; Lit "/qemu/"; Fmt (JNum vmid); Lit "/snapshot/"; Lit snapname;
     Lit "/rollback"] None (JObj []).

Definition delete_snapshot (node : json) (vmid : Z) (snapname : string) : Task json :=
  request_data "DELETE"
    [Lit "nodes/"; Fmt node; Lit "/qemu/"; Fmt (JNum vmid); Lit "/snapshot/"; Lit snapname]
    None (JObj []).

(** *** Backups *)

Definition create_backup (node : json) (vmid : Z) (backup_config : json) : Task json :=
  request_data "POST" (vm_path node vmid "/vzdump") (Some backup_config) (JObj []).

Definition get_backups (node : json) (vmid : Z) : Task json :=
  request_data "GET" (vm_path node vmid "/vzdump") None (JArr []).

(** *** Storage, network, templates *)

Definition get_storage (node : json) : Task json :=
  request_data "GET" [Lit "nodes/"; Fmt node; Lit "/storage"] None (JArr []).

Definition get_storage_content (node : json) (storage : json) : Task json :=
  request_data "GET" [Lit "nodes/"; Fmt node; Lit "/storage/"; Fmt storage; Lit "/content"]
    None (JArr []).

Definition get_networks (node : json) : Task json :=
  request_data "GET" [Lit "nodes/"; Fmt node; Lit "/network"] None (JArr []).

(** The loop of [get_templates]: [item.get("content") == "vztmpl"]. *)
Fixpoint filter_templates (items : list json) (templates : list json) : Res (list json) :=
  match items with
  | [] => Ok templates
  | item :: rest =>
      res_bind (py_get item "content" JNull) (fun c =>
      filter_templates rest (if py_eq_str c "vztmpl" then templates ++ [item] else templates))
  end.

Definition get_templates (node : json) (storage : json) : Task json :=
  result <- _make_request "GET"
    [Lit "nodes/"; Fmt node; Lit "/storage/"; Fmt storage; Lit "/content"] None ;;
  data <- lift (py_get result "data" (JArr [])) ;;
  items <- lift (py_iter data) ;;
  templates <- lift (filter_templates items []) ;;
  ret (JArr templates).

Definition download_template (node : json) (storage : json) (template : string) : Task json :=
  let download_data := JObj [("content", JStr "vztmpl"); ("filename", JStr template)] in
  request_data "POST" [Lit "nodes/"; Fmt node; Lit "/storage/"; Fmt storage; Lit "/download-url"]
    (Some download_data) (JObj []).

(** *** Statistics and consoles *)

Definition get_vm_stats (node : json) (vmid : Z) : Task json :=
  request_data "GET" (vm_path node vmid "/rrddata?timeframe=hour") None (JObj []).

Definition get_node_stats (node : json) : Task json :=
  request_data "GET" [Lit "nodes/"; Fmt node; Lit "/rrddata?timeframe=hour"] None (JObj []).

Definition get_vnc_info (node : json) (vmid : Z) : Task json :=
  request_data "POST" (vm_path node vmid "/vncproxy") None (JObj []).

Definition get_spice_info (node : json) (vmid : Z) : Task json :=
  request_data "POST" (vm_path node vmid "/spice_remote") None (JObj []).

(** *** Utility methods *)

Definition get_next_vmid : Task json :=
  request_data "GET" [Lit "cluster/nextid"] None (JNum 100).

(** [for vm in vms: if vm["vmid"] == vmid: return True] *)
Fixpoint any_vmid (vms : list json) (vmid : Z) : Res bool :=
  match vms with
  | [] => Ok false
  | vm :: rest =>
      res_bind (py_getitem vm "vmid") (fun v =>
      if py_eq_int v vmid then Ok true else any_vmid rest vmid)
  end.

Fixpoint vmid_on_nodes (nodes : list json) (vmid : Z) : Task bool :=
  match nodes with
  | [] => ret false
  | node_info :: rest =>
      node_name <- lift (py_getitem node_info "node") ;;
      vms <- get_vms node_name ;;
      vm_list <- lift (py_iter vms) ;;
      found <- lift (any_vmid vm_list vmid) ;;
      if found then ret true else vmid_on_nodes rest vmid
  end.

(** The body of the [try] of [check_vmid_exists]. *)
Definition check_vmid_exists_body (vmid : Z) : Task bool :=
  nodes <- get_nodes ;;
  node_list <- lift (py_iter nodes) ;;
  vmid_on_nodes node_list vmid.

Definition check_vmid_exists (vmid : Z) : Task bool :=
  try_except (check_vmid_exists_body vmid) (fun _ => ret false).

(** [for vm in vms: if vm.get("name") == name: return vm] *)
Fixpoint first_named (vms : list json) (name : string) : Res json :=
  match vms with
  | [] => Ok JNull
  | vm :: rest =>
      res_bind (py_get vm "name" JNull) (fun n =>
      if py_eq_str n name then Ok vm else first_named rest name)
  end.

Definition get_vm_by_name_body (name : string) : Task json :=
  vms <- get_vms JNull ;;
  vm_list <- lift (py_iter vms) ;;
  lift (first_named vm_list name).

Definition get_vm_by_name (name : string) : Task json :=
  try_except (get_vm_by_name_body name) (fun _ => ret JNull).

(** The public methods of [ProxmoxClient] other than [connect], and the
    raw [_make_request], as one type of calls. *)
Inductive GatewayOp : Type :=
| OpDisconnect
| OpMakeRequest (method : string) (endpoint : fstring) (data : option json)
| OpGetNodes
| OpGetNodeStatus (node : json)
| OpGetNodeResources (node : json)
| OpGetVms (node : json)
| OpGetVmConfig (node : json) (vmid : Z)
| OpGetVmStatus (node : json) (vmid : Z)
| OpCreateVm (node : json) (vmid : json) (config : json)
| OpCloneVm (node : json) (vmid : Z) (newid : json) (name : string)
            (config : list (string * json))
| OpStartVm (node : json) (vmid : Z)
| OpStopVm (node : json) (vmid : Z)
| OpShutdownVm (node : json) (vmid : Z)
| OpRebootVm (node : json) (vmid : Z)
| OpDeleteVm (node : json) (vmid : Z)
| OpMigrateVm (node : json) (vmid : Z) (target_node : json) (config : list (string * json))
| OpUpdateVmConfig (node : json) (vmid : Z) (config : json)
| OpResizeDisk (node : json) (vmid : Z) (disk size : string)
| OpCreateSnapshot (node : json) (vmid : Z) (snapname description : string)
| OpGetSnapshots (node : json) (vmid : Z)
| OpRestoreSnapshot (node : json) (vmid : Z) (snapname : string)
| OpDeleteSnapshot (node : json) (vmid : Z) (snapname : string)
| OpCreateBackup (node : json) (vmid : Z) (backup_config : json)
| OpGetBackups (node : json) (vmid : Z)
| OpGetStorage (node : json)
| OpGetStorageContent (node : json) (storage : json)
| OpGetNetworks (node : json)
| OpGetTemplates (node : json) (storage : json)
| OpDownloadTemplate (node : json) (storage : json) (template : string)
| OpGetVmStats (node : json) (vmid : Z)
| OpGetNodeStats (node : json)
| OpGetVncInfo (node : json) (vmid : Z)
| OpGetSpiceInfo (node : json) (vmid : Z)
| OpGetNextVmid
| OpCheckVmidExists (vmid : Z)
| OpGetVmByName (name : string).

(** The call an operation stands for; [None] and booleans are returned as
    [JNull] and [JBool]. *)
Definition invoke (op : GatewayOp) : Task json :=
  match op with
  | OpDisconnect => do disconnect ;; ret JNull
  | OpMakeRequest m e d => _make_request m e d
  | OpGetNodes => get_nodes
  | OpGetNodeStatus n => get_node_status n
  | OpGetNodeResources n => get_node_resources n
  | OpGetVms n => get_vms n
  | OpGetVmConfig n v => get_vm_config n v
  | OpGetVmStatus n v => get_vm_status n v
  | OpCreateVm n v c => create_vm n v c
  | OpCloneVm n v i nm c => clone_vm n v i nm c
  | OpStartVm n v => start_vm n v
  | OpStopVm n v => stop_vm n v
  | OpShutdownVm n v => shutdown_vm n v
  | OpRebootVm n v => reboot_vm n v
  | OpDeleteVm n v => delete_vm n v
  | OpMigrateVm n v t c => migrate_vm n v t c
  | OpUpdateVmConfig n v c => update_vm_config n v c
  | OpResizeDisk n v d s => resize_disk n v d s
  | OpCreateSnapshot n v s d => create_snapshot n v s d
  | OpGetSnapshots n v => get_snapshots n v
  | OpRestoreSnapshot n v s => restore_snapshot n v s
  | OpDeleteSnapshot n v s => delete_snapshot n v s
  | OpCreateBackup n v c => create_backup n v c
  | OpGetBackups n v => get_backups n v
  | OpGetStorage n => get_storage n
  | OpGetStorageContent n s => get_storage_content n s
  | OpGetNetworks n => get_networks n
  | OpGetTemplates n s => get_templates n s
  | OpDownloadTemplate n s t => download_template n s t
  | OpGetVmStats n v => get_vm_stats n v
  | OpGetNodeStats n => get_node_stats n
  | OpGetVncInfo n v => get_vnc_info n v
  | OpGetSpiceInfo n v => get_spice_info n v
  | OpGetNextVmid => get_next_vmid
  | OpCheckVmidExists v => b <- check_vmid_exists v ;; ret (JBool b)
  | OpGetVmByName nm => get_vm_by_name nm
  end.

(** The operations that catch every exception themselves, and
    [disconnect], which has nothing to do without a session. *)
Definition swallows (op : GatewayOp) : bool :=
  match op with
  | OpDisconnect | OpCheckVmidExists _ | OpGetVmByName _ => true
  | _ => false
  end.

(** ** The cogs: what a command answers *)

(** A [Reply] is the message a command is about to send.  Building the
    embed and [interaction.followup.send] itself, which in the sources
    follow the last registry write inside the same [try], are not modelled:
    they touch neither the registry nor the hypervisor. *)
Inductive Reply : Type :=
| NoPermission (action : string)
| InvalidTemplate (template : string)
| MemoryBelowMinimum (minimum : json)
| CoresBelowMinimum (minimum : json)
| DiskBelowMinimum (minimum : json)
| NoNodes
| VMCreated (name : string) (vmid : json) (template_name : json) (node : json)
| NotFoundOrNotOwned
| VMStarted (vmid : Z)
| VMStopped (vmid : Z)
| VMRebooted (vmid : Z)
| VMDeleted (vmid : Z)
| VMCloned (vmid : Z) (new_vmid : json)
| SizeNotLarger
| VMResized (vmid : Z) (old_size new_size : Z)
| BackupCreated (vmid : Z) (backup_name : string)
| NoSchedule
| NothingToCleanUp
| CleanupCompleted (vmid : Z) (retention : Z) (deleted_count : Z)
| Failed (what : string) (e : PyExc).

(** [try: body  except Exception as e: send(f"Failed to {what}: {e}")] *)
Definition command (what : string) (body : Task Reply) : Task Reply :=
  try_except body (fun e => ret (Failed what e)).

(** [vm = await get_vm_by_id(vmid); if not vm or vm["owner_id"] != user.id: ...] *)
Definition owned_vm (user : Member) (vmid : Z) (k : VM.row -> Task Reply) : Task Reply :=
  vm <- db_read (fun db => db_get_vm_by_id db vmid) ;;
  match vm with
  | None => ret NotFoundOrNotOwned
  | Some vm =>
      if negb (VM.owner_id vm =? user_id user) then ret NotFoundOrNotOwned
      else k vm
  end.

(** [n < v] for an int [n] and a configured value [v]. *)
Definition py_lt_int (n : Z) (v : json) : Res bool :=
  res_bind (as_int v) (fun m => Ok (n <? m)).

(** *** discord_bot/cogs/vm_management.py *)

Definition vm_create (cfg : Settings) (user : Member) (name template : string)
  (memory cores disk : Z) (node : option string) : Task Reply :=
  command "create VM" (
    if negb (has_permission cfg user) then ret (NoPermission "create VMs")
    else
      match dict_lookup (available_templates cfg) template with
      | None => ret (InvalidTemplate template)
      | Some fields =>
          let template_info := JObj fields in
          min_memory <- lift (py_getitem template_info "min_memory") ;;
          low <- lift (py_lt_int memory min_memory) ;;
          if low then ret (MemoryBelowMinimum min_memory) else
          min_cores <- lift (py_getitem template_info "min_cores") ;;
          low <- lift (py_lt_int cores min_cores) ;;
          if low then ret (CoresBelowMinimum min_cores) else
          min_disk <- lift (py_getitem template_info "min_disk") ;;
          low <- lift (py_lt_int disk min_disk) ;;
          if low then ret (DiskBelowMinimum min_disk) else
          let create (node : json) : Task Reply :=
            vmid <- get_next_vmid ;;
            template_file <- lift (py_getitem template_info "template_file") ;;
            let vm_config := JObj
              [("vmid", vmid); ("name", JStr name); ("memory", JNum memory);
               ("cores", JNum cores);
               ("net0", JStr ("virtio,bridge=" ++ default_network_bridge cfg)%string);
               ("scsi0", JStr (default_storage cfg ++ ":" ++ str_int disk)%string);
               ("ostype", JStr "l26"); ("template", template_file)] in
            do create_vm node vmid vm_config ;;
            do db_write (db_create_vm (user_id user)
              {| d_vm_id := vmid; d_name := name; d_template := template;
                 d_memory := memory; d_cores := cores; d_disk_size := disk;
                 d_node := node; d_storage := default_storage cfg;
                 d_network_bridge := default_network_bridge cfg;
                 d_proxmox_config := vm_config |}) ;;
            template_name <- lift (py_getitem template_info "name") ;;
            ret (VMCreated name vmid template_name node) in
          match node with
          | Some (String c s) => create (JStr (String c s))
          | _ =>
              nodes <- get_nodes ;;
              if negb (truthy nodes) then ret NoNodes
              else
                first <- lift (py_first nodes) ;;
                node <- lift (py_getitem first "node") ;;
                create node
          end
      end).

Definition vm_start (user : Member) (vmid : Z) : Task Reply :=
  command "start VM" (
    owned_vm user vmid (fun vm =>
      do start_vm (VM.node vm) vmid ;;
      do db_write (db_update_vm_status vmid "running") ;;
      ret (VMStarted vmid))).

Definition vm_stop (user : Member) (vmid : Z) : Task Reply :=
  command "stop VM" (
    owned_vm user vmid (fun vm =>
      do stop_vm (VM.node vm) vmid ;;
      do db_write (db_update_vm_status vmid "stopped") ;;
      ret (VMStopped vmid))).

Definition vm_reboot (user : Member) (vmid : Z) : Task Reply :=
  command "reboot VM" (
    owned_vm user vmid (fun vm =>
      do reboot_vm (VM.node vm) vmid ;;
      ret (VMRebooted vmid))).

Definition vm_delete (user : Member) (vmid : Z) : Task Reply :=
  command "delete VM" (
    owned_vm user vmid (fun vm =>
      do delete_vm (VM.node vm) vmid ;;
      do db_write (db_delete_vm vmid) ;;
      ret (VMDeleted vmid))).

Definition vm_clone (user : Member) (vmid : Z) (new_name : string) (new_vmid : option Z)
  : Task Reply :=
  command "clone VM" (
    owned_vm user vmid (fun vm =>
      new_vmid <- match new_vmid with
                  | Some n => if n =? 0 then get_next_vmid else ret (JNum n)
                  | None => get_next_vmid
                  end ;;
      let clone_config := [("full", JNum 1); ("storage", JStr (VM.storage vm))] in
      do clone_vm (VM.node vm) vmid new_vmid new_name clone_config ;;
      do db_write (db_create_vm (user_id user)
        {| d_vm_id := new_vmid; d_name := new_name; d_template := VM.template vm;
           d_memory := VM.memory vm; d_cores := VM.cores vm;
           d_disk_size := VM.disk_size vm; d_node := VM.node vm;
           d_storage := VM.storage vm; d_network_bridge := VM.network_bridge vm;
           d_proxmox_config := VM.proxmox_config vm |}) ;;
      ret (VMCloned vmid new_vmid))).

Definition vm_resize (user : Member) (vmid : Z) (new_size : Z) : Task Reply :=
  command "resize VM disk" (
    owned_vm user vmid (fun vm =>
      if new_size <=? VM.disk_size vm then ret SizeNotLarger
      else
        let disk := (VM.storage vm ++ ":vm-" ++ str_int vmid ++ "-disk-0")%string in
        do resize_disk (VM.node vm) vmid disk (str_int new_size ++ "G")%string ;;
        do db_write (db_update_vm_disk_size vmid new_size) ;;
        ret (VMResized vmid (VM.disk_size vm) new_size))).

(** *** discord_bot/cogs/backup_management.py *)

(** [now] is [datetime.now().strftime('%Y%m%d-%H%M%S')], read when the
    command runs. *)
Definition backup_create (cfg : Settings) (user : Member) (now : string) (vmid : Z)
  (backup_name : option string) (compression mode : string) : Task Reply :=
  command "create backup" (
    if negb (has_permission cfg user) then ret (NoPermission "create backups")
    else
      owned_vm user vmid (fun vm =>
        let backup_name :=
          match backup_name with
          | Some (String c s) => String c s
          | _ => ("backup-" ++ VM.name vm ++ "-" ++ now)%string
          end in
        let backup_config := JObj
          [("vmid", JNum vmid); ("storage", JStr (VM.storage vm)); ("mode", JStr mode);
           ("compress", JStr compression); ("remove", JNum 0); ("mailto", JStr "");
           ("mailnotification", JStr "never")] in
        do create_backup (VM.node vm) vmid backup_config ;;
        do db_write (db_create_backup
          {| Backup.backup_id := backup_name; Backup.vm_id := vmid;
             Backup.backup_type := "manual"; Backup.status := "in_progress";
             Backup.backup_data := backup_config |}) ;;
        ret (BackupCreated vmid backup_name))).

(** [x.get("ctime", 0)] for every backup, before any comparison.  The
    hypervisor reports [ctime] in epoch seconds; a key that is not a number
    is answered with [TypeError]. *)
Fixpoint ctime_keys (backups : list json) : Res (list (Z * json)) :=
  match backups with
  | [] => Ok []
  | x :: rest =>
      res_bind (py_get x "ctime" (JNum 0)) (fun c =>
      res_bind (as_int c) (fun key =>
      res_bind (ctime_keys rest) (fun keyed => Ok ((key, x) :: keyed))))
  end.

(** [sort(key=..., reverse=True)] is stable: among equal keys the earlier
    item stays first. *)
Fixpoint insert_desc (x : Z * json) (sorted : list (Z * json)) : list (Z * json) :=
  match sorted with
  | [] => [x]
  | y :: rest => if fst x <? fst y then y :: insert_desc x rest else x :: y :: rest
  end.

Definition sort_desc (keyed : list (Z * json)) : list (Z * json) :=
  fold_right insert_desc [] keyed.

(** [backups.sort(key=lambda x: x.get("ctime", 0), reverse=True)] *)
Definition sort_newest_first (backups : json) : Res (list json) :=
  match backups with
  | JArr items => res_bind (ctime_keys items) (fun keyed => Ok (map snd (sort_desc keyed)))
  | _ => Raise (AttributeError "sort")
  end.

(** [l[n:]] *)
Definition slice_from {A} (l : list A) (n : Z) : list A :=
  if 0 <=? n then skipn (Z.to_nat n) l
  else skipn (List.length l - Z.to_nat (- n)) l.

(** [l[:n]], the part [l[n:]] leaves. *)
Definition slice_to {A} (l : list A) (n : Z) : list A :=
  if 0 <=? n then firstn (Z.to_nat n) l
  else firstn (List.length l - Z.to_nat (- n)) l.

(** The attributes [ProxmoxClient] defines.  The cogs also call
    [delete_backup] and [restore_backup], which are not among them. *)
Definition ProxmoxClient_attrs : list string :=
  ["host"; "user"; "password"; "realm"; "verify_ssl"; "api"; "session";
   "_auth_ticket"; "_auth_csrf"; "connect"; "disconnect"; "_authenticate";
   "_make_request"; "get_nodes"; "get_node_status"; "get_node_resources"; "get_vms";
   "get_vm_config"; "get_vm_status"; "create_vm"; "clone_vm"; "start_vm"; "stop_vm";
   "shutdown_vm"; "reboot_vm"; "delete_vm"; "migrate_vm"; "update_vm_config";
   "resize_disk"; "create_snapshot"; "get_snapshots"; "restore_snapshot";
   "delete_snapshot"; "create_backup"; "get_backups"; "get_storage";
   "get_storage_content"; "get_networks"; "get_templates"; "download_template";
   "get_vm_stats"; "get_node_stats"; "get_vnc_info"; "get_spice_info"; "get_next_vmid";
   "check_vmid_exists"; "get_vm_by_name"].

(** [self.bot.proxmox.<name>]: the lookup of the attribute, which comes
    before the arguments of the call are evaluated. *)
Definition proxmox_getattr (name : string) : Task unit :=
  if existsb (String.eqb name) ProxmoxClient_attrs then ret tt
  else raise (AttributeError name).

(** The loop over [backups[retention:]]: each removal is tried on the
    hypervisor, then in the registry, and counted; a failure is logged with
    [backup['volid']] and the loop goes on.  The call of
    [self.bot.proxmox.delete_backup] is its attribute lookup: the class has
    no such method to run. *)
Fixpoint delete_old_backups (vm : VM.row) (old : list json) (deleted_count : Z) : Task Z :=
  match old with
  | [] => ret deleted_count
  | backup :: rest =>
      deleted_count' <- try_except
        (do proxmox_getattr "delete_backup" ;;
         volid <- lift (py_getitem backup "volid") ;;
         do db_write (db_delete_backup volid) ;;
         ret (deleted_count + 1))
        (fun e =>
           do lift (py_getitem backup "volid") ;;
           ret deleted_count) ;;
      delete_old_backups vm rest deleted_count'
  end.

Definition backup_cleanup (cfg : Settings) (user : Member) (vmid : Z) : Task Reply :=
  command "clean up backups" (
    if negb (has_permission cfg user) then ret (NoPermission "clean up backups")
    else
      owned_vm user vmid (fun vm =>
        schedule <- db_read (fun db => db_get_backup_schedule db vmid) ;;
        if negb (truthy schedule) then ret NoSchedule
        else
          retention <- lift (py_get schedule "retention" (JNum 7)) ;;
          backups <- get_backups (VM.node vm) vmid ;;
          total <- lift (py_len backups) ;;
          retention <- lift (as_int retention) ;;
          if total <=? retention then ret NothingToCleanUp
          else
            sorted <- lift (sort_newest_first backups) ;;
            deleted_count <- delete_old_backups vm (slice_from sorted retention) 0 ;;
            ret (CleanupCompleted vmid retention deleted_count))).

(** The backups that the cleanup keeps and those it selects for removal. *)
Definition cleanup_kept (sorted : list json) (retention : Z) : list json :=
  slice_to sorted retention.

Definition cleanup_selected (sorted : list json) (retention : Z) : list json :=
  slice_from sorted retention.

(** Newest first: every item is at least as new as all that follow it. *)
Inductive newest_first : list (Z * json) -> Prop :=
| nf_nil : newest_first []
| nf_cons x l : (forall y, In y l -> fst y <= fst x) -> newest_first l -> newest_first (x :: l).

(** *** The VM-mutating commands, as one type of requests *)

Inductive MutatingOp : Type :=
| Start (vmid : Z)
| Stop (vmid : Z)
| Reboot (vmid : Z)
| Delete (vmid : Z)
| Resize (vmid : Z) (new_size : Z)
| Clone (vmid : Z) (new_name : string) (new_vmid : option Z)
| BackupNow (now : string) (vmid : Z) (backup_name : option string) (compression mode : string)
| CleanBackups (vmid : Z).

Definition target (op : MutatingOp) : Z :=
  match op with
  | Start v | Stop v | Reboot v | Delete v | Resize v _ | Clone v _ _
  | BackupNow _ v _ _ _ | CleanBackups v => v
  end.

Definition mutate (cfg : Settings) (user : Member) (op : MutatingOp) : Task Reply :=
  match op with
  | Start v => vm_start user v
  | Stop v => vm_stop user v
  | Reboot v => vm_reboot user v
  | Delete v => vm_delete user v
  | Resize v n => vm_resize user v n
  | Clone v nm nv => vm_clone user v nm nv
  | BackupNow now v nm c m => backup_create cfg user now v nm c m
  | CleanBackups v => backup_cleanup cfg user v
  end.

(** The VM has no record, or its record belongs to someone else. *)
Definition not_owned (user : Member) (vmid : Z) (w : World) : Prop :=
  db_get_vm_by_id (database w) vmid = None \/
  exists vm, db_get_vm_by_id (database w) vmid = Some vm /\ VM.owner_id vm <> user_id user.

(** The answers that turn a command down before it does anything. *)
Definition rejected (r : Res Reply) : bool :=
  match r with
  | Ok (NoPermission _) | Ok NotFoundOrNotOwned | Ok SizeNotLarger => true
  | _ => false
  end.

(** ** Commands running together

    The event loop resumes one suspended coroutine at a time: [true] in the
    schedule resumes the first, [false] the second, each up to its next
    suspension point; resuming a finished coroutine does nothing.  When the
    schedule is used up, what is left of each runs to its end. *)
Definition resume {A} (t : Task A) (w : World) : Task A * World :=
  match t with
  | Done r => (Done r, w)
  | Await step k => let (r, w') := step w in (k r, w')
  end.

Fixpoint interleave {A B} (schedule : list bool) (t1 : Task A) (t2 : Task B) (w : World)
  : Task A * Task B * World :=
  match schedule with
  | [] => (t1, t2, w)
  | true :: rest => let (t1', w') := resume t1 w in interleave rest t1' t2 w'
  | false :: rest => let (t2', w') := resume t2 w in interleave rest t1 t2' w'
  end.

Definition gather {A B} (schedule : list bool) (t1 : Task A) (t2 : Task B) (w : World)
  : Res A * Res B * World :=
  let '(t1', t2', w1) := interleave schedule t1 t2 w in
  let (r1, w2) := run t1' w1 in
  let (r2, w3) := run t2' w2 in
  (r1, r2, w3).

(** What is left of [vm_start] after its ownership check, and after its
    request to the hypervisor. *)
Definition start_checked (node : json) (vmid : Z) : Task Reply :=
  command "start VM" (
    do start_vm node vmid ;;
    do db_write (db_update_vm_status vmid "running") ;;
    ret (VMStarted vmid)).

Definition start_sent (vmid : Z) : Task Reply :=
  command "start VM" (
    do db_write (db_update_vm_status vmid "running") ;;
    ret (VMStarted vmid)).

Inductive Phase : Type := Init | Checked | Sent | Finished.

Definition in_phase (user : Member) (vmid : Z) (node : json) (p : Phase) (t : Task Reply)
  : Prop :=
  match p with
  | Init => t = vm_start user vmid
  | Checked => t = start_checked node vmid
  | Sent => t = start_sent vmid
  | Finished => exists r, t = Done r /\ rejected r = false
  end.

(** The start requests a coroutine in that phase has sent. *)
Definition sent (p : Phase) : nat :=
  match p with
  | Init | Checked => 0
  | Sent | Finished => 1
  end.

(** What two starts of the same VM rely on, and keep: the client with its
    open session, and the record of the VM with its owner and node. *)
Definition start_inv (user : Member) (vmid : Z) (node : json) (c : ProxmoxClient) (w : World)
  : Prop :=
  proxmox w = c /\ session c = SessionOpen /\
  exists vm, db_get_vm_by_id (database w) vmid = Some vm /\
             VM.owner_id vm = user_id user /\ VM.node vm = node.

Definition start_request (c : ProxmoxClient) (node : json) (vmid : Z) : Request :=
  api_request c "POST" (vm_path node vmid "/status/start") None.

(** ** The deployment tracker *)

(** Modelled from the spec: the sources hold the [Deployment] table
    ([models/database.py]) and its readers ([user_management.py]); the
    mutators [open], [mark_in_progress], [mark_completed] and [mark_failed]
    of section 4.3 belong to [utils/database.py], which is not among them.
    A mutator applies from the one state the spec gives it and is refused
    ([None]) from any other. *)
Module Tracker.
Import Deployment.

(** Modelled from the spec: a transition sets the status, with the error
    message and the VM reference it is given. *)
Definition with_status (s : Status) (err : option string) (vm : option Z) (d : row) : row :=
  {| deployment_id := deployment_id d; status := s;
     deployment_type := deployment_type d; progress := progress d;
     error_message := err; user_id := user_id d; vm_id := vm;
     deployment_data := deployment_data d |}.

(** Modelled from the spec: [open(user, type, payload)], with the column
    defaults of the table ([status = "pending"], [progress = 0]). *)
Definition open (correlation_id : string) (uid : Z) (type : string) (payload : json) : row :=
  {| deployment_id := correlation_id; status := pending; deployment_type := type;
     progress := 0; error_message := None; user_id := uid; vm_id := None;
     deployment_data := payload |}.

(** Modelled from the spec: [mark_in_progress(deployment)]. *)
Definition mark_in_progress (d : row) : option row :=
  match status d with
  | pending => Some (with_status in_progress (error_message d) (vm_id d) d)
  | _ => None
  end.

(** Modelled from the spec: [mark_completed(deployment, vm_ref?)]. *)
Definition mark_completed (vm_ref : option Z) (d : row) : option row :=
  match status d with
  | in_progress =>
      Some (with_status completed (error_message d)
              (match vm_ref with Some v => Some v | None => vm_id d end) d)
  | _ => None
  end.

(** Modelled from the spec: [mark_failed(deployment, reason)]. *)
Definition mark_failed (reason : string) (d : row) : option row :=
  match status d with
  | in_progress => Some (with_status failed (Some reason) (vm_id d) d)
  | _ => None
  end.

(** Modelled from the spec: the calls of the tracker's contract that act
    on an open deployment. *)
Inductive Op : Type :=
| MarkInProgress
| MarkCompleted (vm_ref : option Z)
| MarkFailed (reason : string).

Definition apply (op : Op) (d : row) : option row :=
  match op with
  | MarkInProgress => mark_in_progress d
  | MarkCompleted v => mark_completed v d
  | MarkFailed r => mark_failed r d
  end.

(** The statuses a deployment takes, in order, under a sequence of calls. *)
Fixpoint changes (ops : list Op) (d : row) : list Status :=
  match ops with
  | [] => []
  | op :: rest =>
      match apply op d with
      | Some d' => status d' :: changes rest d'
      | None => changes rest d
      end
  end.

Definition terminal (s : Status) : bool :=
  match s with
  | completed | failed => true
  | _ => false
  end.
End Tracker.

(** ** More of the cogs *)

(** What the commands below answer. *)
Inductive Answer : Type :=
| Denied (action : string)
| NotYours
| BackupMissing (backup_name : string)
| RestoreStarted (vmid : Z) (backup_name : string)
| BackupDeleted (vmid : Z) (backup_name : string)
| ScheduleCreated (vmid : Z) (schedule : string) (retention : Z)
| TargetNodeMissing (target_node : string)
| MigrationStarted (vmid : Z) (source_node : json) (target_node : string)
| VMInfo (vmid : Z) (status : json) (uptime : option (Z * Z * Z))
| Errored (what : string) (e : PyExc).

(** [try: body  except Exception as e: send(f"Failed to {what}: {e}")] *)
Definition guarded (what : string) (body : Task Answer) : Task Answer :=
  try_except body (fun e => ret (Errored what e)).

(** [vm = await get_vm_by_id(vmid); if not vm or vm["owner_id"] != user.id: ...] *)
Definition owned (user : Member) (vmid : Z) (k : VM.row -> Task Answer) : Task Answer :=
  vm <- db_read (fun db => db_get_vm_by_id db vmid) ;;
  match vm with
  | None => ret NotYours
  | Some vm =>
      if negb (VM.owner_id vm =? user_id user) then ret NotYours
      else k vm
  end.

(** *** discord_bot/cogs/backup_management.py, continued *)

(** [any(backup.get("volid") == backup_name for backup in backups)] *)
Fixpoint any_volid (backups : list json) (backup_name : string) : Res bool :=
  match backups with
  | [] => Ok false
  | backup :: rest =>
      res_bind (py_get backup "volid" JNull) (fun v =>
      if py_eq_str v backup_name then Ok true else any_volid rest backup_name)
  end.

(** [backup_restore]: the call of [self.bot.proxmox.restore_backup] is its
    attribute lookup, as the class has no such method. *)
Definition backup_restore (cfg : Settings) (user : Member) (vmid : Z) (backup_name : string)
  : Task Answer :=
  guarded "restore backup" (
    if negb (has_permission cfg user) then ret (Denied "restore backups")
    else
      owned user vmid (fun vm =>
        backups <- get_backups (VM.node vm) vmid ;;
        items <- lift (py_iter backups) ;;
        backup_exists <- lift (any_volid items backup_name) ;;
        if negb backup_exists then ret (BackupMissing backup_name)
        else
          do proxmox_getattr "restore_backup" ;;
          ret (RestoreStarted vmid backup_name))).

(** [backup_delete]: likewise for [self.bot.proxmox.delete_backup]; the row
    of the registry is removed after the call. *)
Definition backup_delete (cfg : Settings) (user : Member) (vmid : Z) (backup_name : string)
  : Task Answer :=
  guarded "delete backup" (
    if negb (has_permission cfg user) then ret (Denied "delete backups")
    else
      owned user vmid (fun vm =>
        backups <- get_backups (VM.node vm) vmid ;;
        items <- lift (py_iter backups) ;;
        backup_exists <- lift (any_volid items backup_name) ;;
        if negb backup_exists then ret (BackupMissing backup_name)
        else
          do proxmox_getattr "delete_backup" ;;
          do db_write (db_delete_backup (JStr backup_name)) ;;
          ret (BackupDeleted vmid backup_name))).



(** *** discord_bot/cogs/node_management.py: [node_migrate] *)

(** [any(node["node"] == target_node for node in nodes)] *)
Fixpoint any_node (nodes : list json) (target_node : string) : Res bool :=
  match nodes with
  | [] => Ok false
  | node :: rest =>
      res_bind (py_getitem node "node") (fun n =>
      if py_eq_str n target_node then Ok true else any_node rest target_node)
  end.

Definition vm_set_node (n : json) (r : VM.row) : VM.row :=
  {| VM.id := VM.id r; VM.vm_id := VM.vm_id r; VM.name := VM.name r;
     VM.status := VM.status r; VM.template := VM.template r; VM.memory := VM.memory r;
     VM.cores := VM.cores r; VM.disk_size := VM.disk_size r; VM.owner_id := VM.owner_id r;
     VM.node := n; VM.storage := VM.storage r; VM.network_bridge := VM.network_bridge r;
     VM.proxmox_config := VM.proxmox_config r |}.

(** Modelled from the spec: [update_node(vmid, node)]. *)
Definition db_update_vm_node (vmid : Z) (n : json) : DatabaseManager -> DatabaseManager :=
  db_map_vm vmid (vm_set_node n).

Definition node_migrate (cfg : Settings) (user : Member) (vmid : Z) (target_node : string)
  : Task Answer :=
  guarded "migrate VM" (
    if negb (has_permission cfg user) then ret (Denied "migrate VMs")
    else
      owned user vmid (fun vm =>
        nodes <- get_nodes ;;
        node_list <- lift (py_iter nodes) ;;
        target_node_exists <- lift (any_node node_list target_node) ;;
        if negb target_node_exists then ret (TargetNodeMissing target_node)
        else
          let migrate_config := [("online", JNum 1); ("with-local-disks", JNum 1)] in
          do migrate_vm (VM.node vm) vmid (JStr target_node) migrate_config ;;
          do db_write (db_update_vm_node vmid (JStr target_node)) ;;
          ret (MigrationStarted vmid (VM.node vm) target_node))).

(** *** discord_bot/cogs/vm_management.py: [vm_info] *)

(** Days, hours and minutes of an uptime in seconds:
    [s // 86400], [(s % 86400) // 3600], [(s % 3600) // 60]. *)
Definition uptime_parts (uptime_seconds : Z) : Z * Z * Z :=
  (uptime_seconds / 86400, (uptime_seconds mod 86400) / 3600, (uptime_seconds mod 3600) / 60).

(** [vm_info]: the status and the configuration are fetched; the answer
    shows [status.get("status", "Unknown")] and, when [status.get("uptime")]
    is truthy, the uptime in days, hours and minutes. *)
Definition vm_info (user : Member) (vmid : Z) : Task Answer :=
  guarded "get VM info" (
    owned user vmid (fun vm =>
      status <- get_vm_status (VM.node vm) vmid ;;
      config <- get_vm_config (VM.node vm) vmid ;;
      shown <- lift (py_get status "status" (JStr "Unknown")) ;;
      uptime <- lift (py_get status "uptime" JNull) ;;
      if truthy uptime then
        uptime_seconds <- lift (as_int uptime) ;;
        ret (VMInfo vmid shown (Some (uptime_parts uptime_seconds)))
      else ret (VMInfo vmid shown None))).

(** *** discord_bot/cogs/user_management.py: the template usage of [user_stats] *)

(** [template_usage[template] = template_usage.get(template, 0) + 1] *)
Definition usage_add (usage : list (string * Z)) (template : string) : list (string * Z) :=
  dict_set usage template
    (match dict_lookup usage template with Some n => n | None => 0 end + 1).

(** The loop over the user's VMs that fills [template_usage]. *)
Definition template_usage (vms : list VM.row) : list (string * Z) :=
  fold_left (fun usage vm => usage_add usage (VM.template vm)) vms [].

(** *** What a command's answer says *)

Definition all_get (log : list Request) : bool :=
  forallb (fun rq => String.eqb (rq_method rq) "GET") log.

(** Between [w0] and [w] the hypervisor was asked for a change once, in the
    last request sent, and accepted it: the requests before it are [GET]s,
    it is not, and its answer was a 200 with a body that parses. *)
Definition accepted_change (w0 w : World) : Prop :=
  exists (reads : list Request) (rq : Request) (body : json),
    http_log w = http_log w0 ++ reads ++ [rq] /\
    all_get reads = true /\
    String.eqb (rq_method rq) "GET" = false /\
    remote w0 (List.length (http_log w0 ++ reads)) rq = HttpResponse 200 (Some body).

(** A node entry that names its node. *)
Definition names_node (node_info : json) : bool :=
  match py_getitem node_info "node" with
  | Ok _ => true
  | Raise _ => false
  end.

Definition is_vztmpl (item : json) : bool :=
  match py_get item "content" JNull with
  | Ok c => py_eq_str c "vztmpl"
  | Raise _ => false
  end.

Definition is_dict (v : json) : bool :=
  match v with
  | JObj _ => true
  | _ => false
  end.

(** The node a node entry names ([None] when it names none). *)
Definition node_name_of (node_info : json) : json :=
  match py_getitem node_info "node" with
  | Ok n => n
  | Raise _ => JNull
  end.

(** The request [get_vms] sends for one node. *)
Definition qemu_request (c : ProxmoxClient) (node_name : json) : Request :=
  api_request c "GET" [Lit "nodes/"; Fmt node_name; Lit "/qemu"] None.

(** A VM entry that says which node it is on. *)
Definition has_node (vm : json) : bool :=
  match py_getitem vm "node" with
  | Ok _ => true
  | Raise _ => false
  end.

(** From [w] to [w'] nothing was written: the registry is the same and the
    requests sent in between are all [GET]s. *)
Definition only_reads (w w' : World) : Prop :=
  database w' = database w /\
  exists new, http_log w' = http_log w ++ new /\ all_get new = true.

(** The answer is not a created VM. *)
Definition not_created (r : Res Reply) : bool :=
  match r with
  | Ok (VMCreated _ _ _ _) => false
  | _ => true
  end.

(** The answers that report a restore or a removal of a backup. *)
Definition restored_or_deleted (r : Res Answer) : bool :=
  match r with
  | Ok (RestoreStarted _ _) | Ok (BackupDeleted _ _) => true
  | _ => false
  end.

(** A completed cleanup that reports no backup deleted, or any other answer. *)
Definition none_deleted (r : Res Reply) : bool :=
  match r with
  | Ok (CleanupCompleted _ _ deleted_count) => deleted_count =? 0
  | _ => true
  end.

(** The sort key of a backup, [x.get("ctime", 0)], where it is a number. *)
Definition ctime_of (backup : json) : Z :=
  match res_bind (py_get backup "ctime" (JNum 0)) as_int with
  | Ok key => key
  | Raise _ => 0
  end.

(** The count a usage table shows for a template ([0] when it has no
    entry), and the sum of all its counts. *)
Definition usage_of (usage : list (string * Z)) (template : string) : Z :=
  match dict_lookup usage template with
  | Some n => n
  | None => 0
  end.

Definition usage_total (usage : list (string * Z)) : Z :=
  fold_right (fun kv total => snd kv + total) 0 usage.

(** The VMs of a list that were made from a template. *)
Definition made_from (template : string) (vms : list VM.row) : list VM.row :=
  filter (fun vm => String.eqb (VM.template vm) template) vms.

(** A node entry that names a node other than [target_node]. *)
Definition other_node (target_node : string) (node_info : json) : bool :=
  match py_getitem node_info "node" with
  | Ok n => negb (py_eq_str n target_node)
  | Raise _ => false
  end.

(** The [vm_config] that [vm_create] builds. *)
Definition vm_config_of (cfg : Settings) (vmid : json) (name : string) (memory cores disk : Z)
  (template_file : json) : json :=
  JObj [("vmid", vmid); ("name", JStr name); ("memory", JNum memory); ("cores", JNum cores);
        ("net0", JStr ("virtio,bridge=" ++ default_network_bridge cfg)%string);
        ("scsi0", JStr (default_storage cfg ++ ":" ++ str_int disk)%string);
        ("ostype", JStr "l26"); ("template", template_file)].

(** The last row of the VM table. *)
Definition newest_row (db : DatabaseManager) : option VM.row :=
  last (map Some (vms db)) None.

(** ** Inputs the statements below are evaluated on *)

Definition pve_client : ProxmoxClient :=
  ProxmoxClient_init "pve.example.org" "root" "secret" "pam".

Definition connected_client : ProxmoxClient :=
  set_auth_csrf (JStr "csrf") (set_auth_ticket (JStr "ticket") (set_session SessionOpen pve_client)).

(** One behaviour of the constructor of [ProxmoxAPI], for the statements
    on [connect] to be evaluated with: it asks for a ticket of its own, with
    one more request, and raises unless that is answered with 200. *)
Definition logs_in (host user password : string) (w : World) : Res unit * World :=
  let (resp, w1) :=
    send {| rq_method := "POST";
            rq_url := [Lit "https://"; Lit host; Lit ":8006/api2/json/access/ticket"];
            rq_headers := [];
            rq_body := FormBody (JObj [("username", JStr user);
                                       ("password", JStr password)]) |} w in
  match resp with
  | TransportFailure => (Raise ClientError, w1)
  | HttpResponse st _ =>
      if st =? 200 then (Ok tt, w1) else (Raise (AuthenticationFailed st), w1)
  end.

Definition empty_db : DatabaseManager :=
  {| vms := []; backups := []; backup_schedules := [] |}.

(** A hypervisor that answers every request with [{"data": null}]. *)
Definition always_ok : nat -> Request -> Response :=
  fun _ _ => HttpResponse 200 (Some (JObj [("data", JNull)])).

(** A hypervisor that cannot be reached for the first request and answers
    from the second on. *)
Definition flaky : nat -> Request -> Response :=
  fun n _ =>
    match n with
    | O => TransportFailure
    | _ => HttpResponse 200 (Some (JObj [("data", JNull)]))
    end.

(** A hypervisor that turns every request down with a structured error. *)
Definition always_denied : nat -> Request -> Response :=
  fun _ _ => HttpResponse 403
    (Some (JObj [("errors", JObj [("message", JStr "Permission check failed")])])).

Definition world_of (c : ProxmoxClient) (db : DatabaseManager) (r : nat -> Request -> Response)
  : World :=
  {| proxmox := c; database := db; remote := r; http_log := [] |}.

(** A hypervisor that gives its answers in order, whatever is asked. *)
Definition answers (l : list Response) : nat -> Request -> Response :=
  fun n _ => nth n l (HttpResponse 200 (Some (JObj [("data", JNull)]))).

Definition alice : Member := {| user_id := 1; roles := ["VPS Manager"] |}.
Definition bob : Member := {| user_id := 2; roles := ["VPS Manager"] |}.

(** A VM of alice's with internal and hypervisor id [n]. *)
Definition vm_of_alice (n : Z) : VM.row :=
  {| VM.id := n; VM.vm_id := JNum n; VM.name := "web"; VM.status := "stopped";
     VM.template := "ubuntu-22.04"; VM.memory := 2048; VM.cores := 2; VM.disk_size := 32;
     VM.owner_id := 1; VM.node := JStr "pve"; VM.storage := "local-lvm";
     VM.network_bridge := "vmbr0"; VM.proxmox_config := JObj [] |}.

Definition one_vm : DatabaseManager :=
  {| vms := [vm_of_alice 100]; backups := []; backup_schedules := [] |}.

(** Alice at the default quota of five. *)
Definition five_vms : DatabaseManager :=
  {| vms := map vm_of_alice [101; 102; 103; 104; 105]; backups := [];
     backup_schedules := [] |}.

(** The catalog in the shape the cogs read it: the entries of [config.py],
    each with the [template_file] key that [vm_create] looks up. *)
Definition cog_settings : Settings :=
  {| default_storage := default_storage settings;
     default_network_bridge := default_network_bridge settings;
     admin_user_ids := admin_user_ids settings;
     allowed_roles := allowed_roles settings;
     max_vms_per_user := max_vms_per_user settings;
     available_templates :=
       map (fun kv =>
              (fst kv,
               match dict_lookup (snd kv) "template" with
               | Some f => snd kv ++ [("template_file", f)]
               | None => snd kv
               end))
           (available_templates settings) |}.

(** The hypervisor's answers to a creation: the next id, then the task. *)
Definition creation_answers : nat -> Request -> Response :=
  answers [HttpResponse 200 (Some (JObj [("data", JNum 106)]));
           HttpResponse 200 (Some (JObj [("data", JStr "UPID:pve:create")]))].

(** One VM with a schedule that keeps one backup, and two backups on
    record. *)
Definition backed_up : DatabaseManager :=
  {| vms := [vm_of_alice 100];
     backups :=
       [{| Backup.backup_id := "b-old"; Backup.vm_id := 100; Backup.backup_type := "scheduled";
           Backup.status := "completed"; Backup.backup_data := JObj [] |};
        {| Backup.backup_id := "b-new"; Backup.vm_id := 100; Backup.backup_type := "scheduled";
           Backup.status := "completed"; Backup.backup_data := JObj [] |}];
     backup_schedules := [(100, JObj [("vmid", JNum 100); ("retention", JNum 1)])] |}.

Definition two_backups : nat -> Request -> Response :=
  answers [HttpResponse 200 (Some (JObj [("data",
    JArr [JObj [("volid", JStr "b-old"); ("ctime", JNum 10)];
          JObj [("volid", JStr "b-new"); ("ctime", JNum 20)]])]))].

(** * Properties *)

(** ** Running a coroutine *)

Lemma run_bind {A B} (t : Task A) (f : A -> Task B) (w : World) :
  run (bind t f) w =
  match run t w with
  | (Ok a, w') => run (f a) w'
  | (Raise e, w') => (Raise e, w')
  end.
Proof.
  revert w. induction t as [[a | e] | X step k IH]; intros w; simpl; try reflexivity.
  destruct (step w) as [r w']. apply IH.
Qed.

Lemma run_try_except {A} (t : Task A) (h : PyExc -> Task A) (w : World) :
  run (try_except t h) w =
  match run t w with
  | (Ok a, w') => (Ok a, w')
  | (Raise e, w') => run (h e) w'
  end.
Proof.
  revert w. induction t as [[a | e] | X step k IH]; intros w; simpl; try reflexivity.
  destruct (step w) as [r w']. apply IH.
Qed.

Lemma run_lift {A} (r : Res A) (w : World) : run (lift r) w = (r, w).
Proof. reflexivity. Qed.

(** A coroutine whose every exception is caught and answered by a value
    returns a value. *)
Lemma run_swallow {A} (t : Task A) (a0 : A) (w : World) :
  fst (run (try_except t (fun _ => ret a0)) w) =
  match fst (run t w) with
  | Ok a => Ok a
  | Raise _ => Ok a0
  end.
Proof.
  rewrite run_try_except. destruct (run t w) as [[a | e] w']; reflexivity.
Qed.

(** ** The gateway without a session *)

Lemma make_request_no_session (m : string) (e : fstring) (d : option json) (w : World) :
  session (proxmox w) = SessionNone ->
  run (_make_request m e d) w = (Raise NotConnected, w).
Proof. intros H. simpl. rewrite H. reflexivity. Qed.

Lemma request_data_no_session (m : string) (e : fstring) (d : option json) (dflt : json)
  (w : World) :
  session (proxmox w) = SessionNone ->
  run (request_data m e d dflt) w = (Raise NotConnected, w).
Proof.
  intros H. unfold request_data. rewrite run_bind, make_request_no_session by assumption.
  reflexivity.
Qed.

Lemma get_vms_no_session (node : json) (w : World) :
  session (proxmox w) = SessionNone ->
  run (get_vms node) w = (Raise NotConnected, w).
Proof.
  intros H. unfold get_vms. destruct (truthy node).
  - now apply request_data_no_session.
  - rewrite run_bind. unfold get_nodes. now rewrite request_data_no_session.
Qed.

(** C6, as amended.  Without a session ([self.session is None]) no
    operation other than [connect] sends a request or changes anything;
    each of them raises the not-connected exception, except [disconnect],
    which returns, and [check_vmid_exists] and [get_vm_by_name], which
    catch it and return [False] and [None]. *)
Theorem no_session_no_request (op : GatewayOp) (w : World) :
  session (proxmox w) = SessionNone ->
  snd (run (invoke op) w) = w /\
  fst (run (invoke op) w) =
    match op with
    | OpDisconnect => Ok JNull
    | OpCheckVmidExists _ => Ok (JBool false)
    | OpGetVmByName _ => Ok JNull
    | _ => Raise NotConnected
    end.
Proof.
  intros H.
  destruct op; cbv beta iota delta [invoke];
    try (unfold get_nodes, get_node_status, get_node_resources, get_vm_config,
           get_vm_status, create_vm, clone_vm, start_vm, stop_vm, shutdown_vm, reboot_vm,
           delete_vm, migrate_vm, update_vm_config, resize_disk, create_snapshot,
           get_snapshots, restore_snapshot, delete_snapshot, create_backup, get_backups,
           get_storage, get_storage_content, get_networks, download_template,
           get_vm_stats, get_node_stats, get_vnc_info, get_spice_info, get_next_vmid;
         rewrite request_data_no_session by assumption; split; reflexivity).
  - (* disconnect *)
    simpl. rewrite H. split; reflexivity.
  - (* _make_request *)
    rewrite make_request_no_session by assumption. split; reflexivity.
  - (* get_vms *)
    rewrite get_vms_no_session by assumption. split; reflexivity.
  - (* get_templates *)
    unfold get_templates. rewrite run_bind, make_request_no_session by assumption.
    split; reflexivity.
  - (* check_vmid_exists *)
    rewrite run_bind. unfold check_vmid_exists, check_vmid_exists_body.
    rewrite run_try_except, run_bind. unfold get_nodes.
    rewrite request_data_no_session by assumption. split; reflexivity.
  - (* get_vm_by_name *)
    unfold get_vm_by_name, get_vm_by_name_body.
    rewrite run_try_except, run_bind, get_vms_no_session by assumption.
    split; reflexivity.
Qed.

Lemma no_session_no_request_witness :
  session (proxmox (world_of pve_client empty_db always_ok)) = SessionNone /\
  snd (run (invoke (OpStartVm (JStr "pve") 100)) (world_of pve_client empty_db always_ok))
    = world_of pve_client empty_db always_ok /\
  fst (run (invoke (OpStartVm (JStr "pve") 100)) (world_of pve_client empty_db always_ok))
    = Raise NotConnected.
Proof.
  split; [reflexivity |].
  exact (no_session_no_request (OpStartVm (JStr "pve") 100)
           (world_of pve_client empty_db always_ok) eq_refl).
Defined.

(** C6, as stated, fails: before [connect], [check_vmid_exists] does not
    raise; it answers [False]. *)
Lemma check_vmid_exists_before_connect :
  session (proxmox (world_of pve_client empty_db always_ok)) = SessionNone /\
  fst (run (invoke (OpCheckVmidExists 100)) (world_of pve_client empty_db always_ok))
    = Ok (JBool false) /\
  fst (run (invoke (OpCheckVmidExists 100)) (world_of pve_client empty_db always_ok))
    <> Raise NotConnected.
Proof.
  split; [reflexivity |]. split; [reflexivity |]. discriminate.
Qed.

(** C10.  [check_vmid_exists] and [get_vm_by_name] return a value in every
    world: whatever the body of their [try] raises is answered by [False],
    respectively [None]. *)
Theorem lookups_never_raise (vmid : Z) (name : string) (w : World) :
  (exists b, fst (run (check_vmid_exists vmid) w) = Ok b) /\
  (exists v, fst (run (get_vm_by_name name) w) = Ok v) /\
  fst (run (check_vmid_exists vmid) w) =
    match fst (run (check_vmid_exists_body vmid) w) with
    | Ok b => Ok b
    | Raise _ => Ok false
    end /\
  fst (run (get_vm_by_name name) w) =
    match fst (run (get_vm_by_name_body name) w) with
    | Ok v => Ok v
    | Raise _ => Ok JNull
    end.
Proof.
  assert (Hc := run_swallow (check_vmid_exists_body vmid) false w).
  assert (Hn := run_swallow (get_vm_by_name_body name) JNull w).
  fold (check_vmid_exists vmid) in Hc. fold (get_vm_by_name name) in Hn.
  repeat split; try assumption.
  - rewrite Hc. destruct (fst (run (check_vmid_exists_body vmid) w)); eauto.
  - rewrite Hn. destruct (fst (run (get_vm_by_name_body name) w)); eauto.
Qed.

(** ** One request, one attempt *)

(** C7, as amended.  With an open session [_make_request] sends exactly one
    request and its outcome is what [read_response] makes of the one answer:
    a failure of the transport and an answer other than 200 both surface at
    once as an exception, and neither is tried again. *)
Theorem make_request_single_attempt (m : string) (e : fstring) (d : option json) (w : World) :
  session (proxmox w) = SessionOpen ->
  let rq := api_request (proxmox w) m e d in
  let resp := remote w (List.length (http_log w)) rq in
  http_log (snd (run (_make_request m e d) w)) = http_log w ++ [rq] /\
  fst (run (_make_request m e d) w) = read_response resp /\
  (resp = TransportFailure -> fst (run (_make_request m e d) w) = Raise ClientError) /\
  (forall st body, resp = HttpResponse st body -> st <> 200 ->
     exists x, fst (run (_make_request m e d) w) = Raise x).
Proof.
  intros H rq resp. simpl. rewrite H. simpl. fold rq. fold resp.
  repeat split.
  - intros ->. reflexivity.
  - intros st body -> Hst. simpl.
    destruct body as [result |]; [| eauto].
    destruct (st =? 200) eqn:E; [apply Z.eqb_eq in E; contradiction |].
    destruct (py_get result "errors" (JObj [])) as [errors | x]; simpl; [| eauto].
    destruct (py_get errors "message" (JStr "Unknown error")); simpl; eauto.
Qed.

Lemma make_request_single_attempt_witness :
  session (proxmox (world_of connected_client empty_db always_denied)) = SessionOpen /\
  http_log (snd (run (_make_request "GET" [Lit "nodes"] None)
                     (world_of connected_client empty_db always_denied)))
    = [api_request connected_client "GET" [Lit "nodes"] None] /\
  fst (run (_make_request "GET" [Lit "nodes"] None)
           (world_of connected_client empty_db always_denied))
    = Raise (ApiRequestFailed (JStr "Permission check failed")).
Proof.
  split; [reflexivity |].
  pose proof (make_request_single_attempt "GET" [Lit "nodes"] None
                (world_of connected_client empty_db always_denied) eq_refl) as [Hlog [Hres _]].
  split; [exact Hlog | exact Hres].
Defined.

(** C7, as stated, fails: a request whose first attempt cannot reach the
    hypervisor surfaces the failure after that single attempt, although a
    second attempt would have been answered. *)
Lemma transport_failure_not_retried :
  session (proxmox (world_of connected_client empty_db flaky)) = SessionOpen /\
  flaky 0%nat (api_request connected_client "GET" [Lit "nodes"] None) = TransportFailure /\
  flaky 1%nat (api_request connected_client "GET" [Lit "nodes"] None)
    = HttpResponse 200 (Some (JObj [("data", JNull)])) /\
  fst (run (_make_request "GET" [Lit "nodes"] None) (world_of connected_client empty_db flaky))
    = Raise ClientError /\
  List.length (http_log (snd (run (_make_request "GET" [Lit "nodes"] None)
                                  (world_of connected_client empty_db flaky)))) = 1%nat.
Proof. repeat split. Qed.

(** ** Ownership comes first *)

Lemma owned_vm_rejects (what : string) (user : Member) (vmid : Z) (k : VM.row -> Task Reply)
  (w : World) :
  not_owned user vmid w ->
  run (command what (owned_vm user vmid k)) w = (Ok NotFoundOrNotOwned, w).
Proof.
  intros [H | [vm [H Hne]]]; unfold command, owned_vm; rewrite run_try_except, run_bind;
    simpl; rewrite H.
  - reflexivity.
  - apply Z.eqb_neq in Hne. rewrite Hne. reflexivity.
Qed.

Lemma owned_vm_accepts (what : string) (user : Member) (vmid : Z) (k : VM.row -> Task Reply)
  (w : World) (vm : VM.row) :
  db_get_vm_by_id (database w) vmid = Some vm ->
  VM.owner_id vm = user_id user ->
  run (command what (owned_vm user vmid k)) w = run (command what (k vm)) w.
Proof.
  intros H Ho. unfold command, owned_vm. rewrite !run_try_except, run_bind. simpl.
  rewrite H. apply Z.eqb_eq in Ho. rewrite Ho. reflexivity.
Qed.

(** C5.  A start, stop, reboot, delete, resize, clone, backup or backup
    cleanup asked for a VM that has no record, or whose record belongs to
    someone else, is turned down before anything is sent to the hypervisor:
    the log of requests, the registry and the client are as they were. *)
Theorem not_owner_rejected (cfg : Settings) (user : Member) (op : MutatingOp) (w : World) :
  not_owned user (target op) w ->
  rejected (fst (run (mutate cfg user op) w)) = true /\
  snd (run (mutate cfg user op) w) = w.
Proof.
  intros H. destruct op; simpl target in H; cbv beta iota delta [mutate];
    try (unfold vm_start, vm_stop, vm_reboot, vm_delete, vm_resize, vm_clone;
         rewrite owned_vm_rejects by assumption; split; reflexivity).
  - unfold backup_create. destruct (has_permission cfg user); simpl negb; cbv iota.
    + rewrite owned_vm_rejects by assumption. split; reflexivity.
    + split; reflexivity.
  - unfold backup_cleanup. destruct (has_permission cfg user); simpl negb; cbv iota.
    + rewrite owned_vm_rejects by assumption. split; reflexivity.
    + split; reflexivity.
Qed.

Lemma request_data_open (m : string) (e : fstring) (d : option json) (dflt : json) (w : World) :
  session (proxmox w) = SessionOpen ->
  snd (run (request_data m e d dflt) w) = snd (send (api_request (proxmox w) m e d) w).
Proof.
  intros H. unfold request_data. rewrite run_bind. simpl. rewrite H. simpl.
  destruct (read_response _); reflexivity.
Qed.

(** ** Resizing only grows a disk *)

(** C9.  On a VM the caller owns, a new size that is not larger than the
    recorded one is turned down with the world as it was: nothing is sent and
    the recorded size stays.  A strictly larger size goes on to the
    hypervisor: with an open session the resize request is sent. *)
Theorem resize_only_grows (user : Member) (vmid new_size : Z) (w : World) (vm : VM.row) :
  db_get_vm_by_id (database w) vmid = Some vm ->
  VM.owner_id vm = user_id user ->
  (new_size <= VM.disk_size vm ->
     run (vm_resize user vmid new_size) w = (Ok SizeNotLarger, w)) /\
  (VM.disk_size vm < new_size ->
     fst (run (vm_resize user vmid new_size) w) <> Ok SizeNotLarger /\
     (session (proxmox w) = SessionOpen ->
      http_log (snd (run (vm_resize user vmid new_size) w)) =
      http_log w ++
      [api_request (proxmox w) "PUT" (vm_path (VM.node vm) vmid "/resize")
         (Some (JObj [("disk", JStr (VM.storage vm ++ ":vm-" ++ str_int vmid ++ "-disk-0")%string);
                      ("size", JStr (str_int new_size ++ "G")%string)]))])).
Proof.
  intros Hvm Ho. unfold vm_resize. rewrite (owned_vm_accepts _ _ _ _ _ vm Hvm Ho).
  split.
  - intros Hle. apply Z.leb_le in Hle. rewrite Hle. reflexivity.
  - intros Hlt. apply Z.leb_gt in Hlt. rewrite Hlt.
    unfold command. rewrite run_try_except, run_bind. split.
    + destruct (run (resize_disk _ _ _ _) w) as [[a | x] w1]; [| simpl; discriminate].
      rewrite run_bind. simpl. discriminate.
    + intros Hs. unfold resize_disk.
      pose proof (request_data_open "PUT" (vm_path (VM.node vm) vmid "/resize")
        (Some (JObj [("disk", JStr (VM.storage vm ++ ":vm-" ++ str_int vmid ++ "-disk-0")%string);
                     ("size", JStr (str_int new_size ++ "G")%string)])) (JObj []) w Hs) as Hsend.
      destruct (run (request_data _ _ _ _) w) as [[a | x] w1]; simpl in Hsend; subst w1;
        [rewrite run_bind |]; reflexivity.
Qed.

(** ** Resources below the template's minimum *)

(** C2.  A creation request of a permitted user that names a template of
    the catalog and asks for less memory, fewer cores or less disk than the
    template's minimum is answered with the first dimension that falls
    short, and the world is as it was: no request is sent, so no identifier
    is fetched from [cluster/nextid], and no row is written. *)
Theorem below_minimum_rejected (cfg : Settings) (user : Member) (name template : string)
  (memory cores disk : Z) (node : option string) (w : World)
  (fields : list (string * json)) (min_memory min_cores min_disk : Z) :
  has_permission cfg user = true ->
  dict_lookup (available_templates cfg) template = Some fields ->
  dict_lookup fields "min_memory" = Some (JNum min_memory) ->
  dict_lookup fields "min_cores" = Some (JNum min_cores) ->
  dict_lookup fields "min_disk" = Some (JNum min_disk) ->
  memory < min_memory \/ cores < min_cores \/ disk < min_disk ->
  run (vm_create cfg user name template memory cores disk node) w =
  (Ok (if memory <? min_memory then MemoryBelowMinimum (JNum min_memory)
       else if cores <? min_cores then CoresBelowMinimum (JNum min_cores)
       else DiskBelowMinimum (JNum min_disk)), w).
Proof.
  intros Hp Ht Hm Hc Hd Hlow. unfold vm_create, command.
  rewrite Hp, Ht. simpl negb. cbv iota.
  unfold py_getitem, lift. rewrite Hm. simpl.
  destruct (memory <? min_memory) eqn:Em; [reflexivity |].
  rewrite Hc. simpl.
  destruct (cores <? min_cores) eqn:Ec; [reflexivity |].
  rewrite Hd. simpl.
  destruct (disk <? min_disk) eqn:Ed; [reflexivity |].
  apply Z.ltb_ge in Em, Ec, Ed. lia.
Qed.

Lemma below_minimum_rejected_witness :
  run (vm_create settings alice "tiny" "alpine-3.18" 256 1 10 None)
      (world_of connected_client one_vm always_ok)
  = (Ok (MemoryBelowMinimum (JNum 512)), world_of connected_client one_vm always_ok).
Proof.
  exact (below_minimum_rejected settings alice "tiny" "alpine-3.18" 256 1 10 None
           (world_of connected_client one_vm always_ok)
           (os_template "Alpine Linux 3.18" "alpine-3.18-standard_3.18.4-1_amd64.tar.zst"
              512 10 "root")
           512 1 10 eq_refl eq_refl eq_refl eq_refl eq_refl (or_introl eq_refl)).
Defined.

Lemma not_owner_rejected_witness :
  not_owned bob 100 (world_of connected_client one_vm always_ok) /\
  rejected (fst (run (mutate settings bob (Delete 100))
                     (world_of connected_client one_vm always_ok))) = true /\
  snd (run (mutate settings bob (Delete 100)) (world_of connected_client one_vm always_ok))
    = world_of connected_client one_vm always_ok.
Proof.
  assert (H : not_owned bob 100 (world_of connected_client one_vm always_ok)).
  { right. exists (vm_of_alice 100). split; [reflexivity | discriminate]. }
  split; [exact H |].
  exact (not_owner_rejected settings bob (Delete 100)
           (world_of connected_client one_vm always_ok) H).
Defined.

Lemma resize_only_grows_witness :
  run (vm_resize alice 100 32) (world_of connected_client one_vm always_ok)
    = (Ok SizeNotLarger, world_of connected_client one_vm always_ok) /\
  List.length (http_log (snd (run (vm_resize alice 100 64)
                                  (world_of connected_client one_vm always_ok)))) = 1%nat.
Proof.
  pose proof (resize_only_grows alice 100 32 (world_of connected_client one_vm always_ok)
                (vm_of_alice 100) eq_refl eq_refl) as [Hle _].
  pose proof (resize_only_grows alice 100 64 (world_of connected_client one_vm always_ok)
                (vm_of_alice 100) eq_refl eq_refl) as [_ Hgt].
  split.
  - apply Hle. simpl. lia.
  - destruct Hgt as [_ Hlog]; [simpl; lia |]. rewrite (Hlog eq_refl). reflexivity.
Defined.

(** ** The quota is never consulted *)

(** C1 fails on the code.  Alice owns [max_vms_per_user] VMs; her next
    creation is not turned down: an id is fetched, the creation is posted to
    the hypervisor and a sixth row is written. *)
Lemma quota_not_enforced :
  Z.of_nat (List.length (db_get_user_vms five_vms 1)) = max_vms_per_user cog_settings /\
  fst (run (vm_create cog_settings alice "sixth" "ubuntu-22.04" 2048 2 32 (Some "pve"))
           (world_of connected_client five_vms creation_answers))
    = Ok (VMCreated "sixth" (JNum 106) (JStr "Ubuntu 22.04 LTS") (JStr "pve")) /\
  List.length (db_get_user_vms
     (database (snd (run (vm_create cog_settings alice "sixth" "ubuntu-22.04" 2048 2 32
                            (Some "pve"))
                         (world_of connected_client five_vms creation_answers)))) 1) = 6%nat /\
  map rq_method
     (http_log (snd (run (vm_create cog_settings alice "sixth" "ubuntu-22.04" 2048 2 32
                            (Some "pve"))
                         (world_of connected_client five_vms creation_answers))))
    = ["GET"; "POST"].
Proof. repeat split. Qed.

(** ** The backup cleanup removes nothing *)

(** C3 fails on the code.  The schedule keeps one backup and the hypervisor
    lists two: the cleanup selects the older one, but
    [self.bot.proxmox.delete_backup] is not a method of the client, the
    [AttributeError] of every removal is caught inside the loop, and the
    command reports a completed cleanup with nothing deleted: one request was
    sent, the listing, and both backups are still on record. *)
Lemma cleanup_deletes_nothing :
  existsb (String.eqb "delete_backup") ProxmoxClient_attrs = false /\
  fst (run (backup_cleanup settings alice 100)
           (world_of connected_client backed_up two_backups))
    = Ok (CleanupCompleted 100 1 0) /\
  map rq_method
      (http_log (snd (run (backup_cleanup settings alice 100)
                          (world_of connected_client backed_up two_backups))))
    = ["GET"] /\
  database (snd (run (backup_cleanup settings alice 100)
                     (world_of connected_client backed_up two_backups)))
    = backed_up /\
  res_bind (sort_newest_first
              (JArr [JObj [("volid", JStr "b-old"); ("ctime", JNum 10)];
                     JObj [("volid", JStr "b-new"); ("ctime", JNum 20)]]))
           (fun sorted => Ok (cleanup_selected sorted 1))
    = Ok [JObj [("volid", JStr "b-old"); ("ctime", JNum 10)]].
Proof. repeat split. Qed.

Lemma delete_old_backups_inert (vm : VM.row) (old : list json) (n : Z) (w : World) :
  snd (run (delete_old_backups vm old n) w) = w /\
  (fst (run (delete_old_backups vm old n) w) = Ok n \/
   exists e, fst (run (delete_old_backups vm old n) w) = Raise e).
Proof.
  revert n w. induction old as [| backup rest IH]; intros n w.
  - split; [reflexivity | left; reflexivity].
  - cbn [delete_old_backups]. rewrite run_bind, run_try_except.
    change (run (do proxmox_getattr "delete_backup";; _) w)
      with (@Raise Z (AttributeError "delete_backup"), w).
    cbv iota beta. rewrite run_bind. unfold lift. cbn [run].
    destruct (py_getitem backup "volid") as [v | e]; cbv iota beta.
    + unfold ret at 1. cbn [run]. apply IH.
    + split; [reflexivity | right; eexists; reflexivity].
Qed.

Lemma request_data_world (m : string) (e : fstring) (d : option json) (dflt : json) (w : World) :
  snd (run (request_data m e d dflt) w) = w \/
  snd (run (request_data m e d dflt) w) = snd (send (api_request (proxmox w) m e d) w).
Proof.
  unfold request_data. rewrite run_bind. simpl.
  destruct (session (proxmox w)); simpl; auto.
  destruct (read_response _); auto.
Qed.

(** In every world, for every caller and VM, the cleanup leaves the registry
    as it was, and sends the hypervisor at most the request that lists the
    backups. *)
Lemma cleanup_never_removes (cfg : Settings) (user : Member) (vmid : Z) (w : World) :
  database (snd (run (backup_cleanup cfg user vmid) w)) = database w /\
  (http_log (snd (run (backup_cleanup cfg user vmid) w)) = http_log w \/
   exists node,
     http_log (snd (run (backup_cleanup cfg user vmid) w)) =
     http_log w ++ [api_request (proxmox w) "GET" (vm_path node vmid "/vzdump") None]).
Proof.
  remember (run (backup_cleanup cfg user vmid) w) as res eqn:E.
  assert (Hsame : forall r, res = (r, w) ->
            database (snd res) = database w /\
            (http_log (snd res) = http_log w \/
             exists node, http_log (snd res) =
               http_log w ++ [api_request (proxmox w) "GET" (vm_path node vmid "/vzdump") None])).
  { intros r ->. split; auto. }
  unfold backup_cleanup in E.
  destruct (has_permission cfg user); simpl negb in E; cbv iota in E; [| eapply Hsame, E].
  destruct (db_get_vm_by_id (database w) vmid) as [vm |] eqn:Hvm;
    [| rewrite owned_vm_rejects in E by (left; exact Hvm); eapply Hsame, E].
  destruct (VM.owner_id vm =? user_id user) eqn:Ho;
    [apply Z.eqb_eq in Ho
    | apply Z.eqb_neq in Ho;
      rewrite owned_vm_rejects in E by (right; exists vm; auto); eapply Hsame, E].
  rewrite (owned_vm_accepts _ _ _ _ _ vm Hvm Ho) in E.
  unfold command in E. rewrite run_try_except, run_bind in E.
  change (run (db_read (fun db => db_get_backup_schedule db vmid)) w)
    with (Ok (db_get_backup_schedule (database w) vmid), w) in E.
  cbv iota beta in E.
  destruct (negb (truthy (db_get_backup_schedule (database w) vmid)));
    [eapply Hsame, E |].
  rewrite run_bind, run_lift in E.
  destruct (py_get _ "retention" _) as [retention | e]; [| eapply Hsame, E].
  rewrite run_bind in E. unfold get_backups in E.
  pose proof (request_data_world "GET" (vm_path (VM.node vm) vmid "/vzdump") None (JArr []) w)
    as Hw.
  destruct (run (request_data _ _ _ _) w) as [rb w1]. simpl snd in Hw.
  assert (Hsent : forall r, res = (r, w1) ->
            database (snd res) = database w /\
            (http_log (snd res) = http_log w \/
             exists node, http_log (snd res) =
               http_log w ++ [api_request (proxmox w) "GET" (vm_path node vmid "/vzdump") None])).
  { intros r ->. simpl snd. destruct Hw as [-> | ->]; split; auto.
    right. exists (VM.node vm). reflexivity. }
  destruct rb as [bs | e]; [| eapply Hsent, E].
  rewrite run_bind, run_lift in E. destruct (py_len bs) as [total | e]; [| eapply Hsent, E].
  rewrite run_bind, run_lift in E.
  destruct (as_int retention) as [keep | e]; [| eapply Hsent, E].
  destruct (total <=? keep); [eapply Hsent, E |].
  rewrite run_bind, run_lift in E.
  destruct (sort_newest_first bs) as [sorted | e]; [| eapply Hsent, E].
  rewrite run_bind in E.
  pose proof (delete_old_backups_inert vm (slice_from sorted keep) 0 w1) as [Hs _].
  destruct (run (delete_old_backups _ _ _) w1) as [[n | e] w2]; simpl snd in Hs; subst w2;
    eapply Hsent, E.
Qed.

(** ** The order of a deployment's states *)

Lemma changes_terminal (ops : list Tracker.Op) (d : Deployment.row) :
  Tracker.terminal (Deployment.status d) = true -> Tracker.changes ops d = [].
Proof.
  intros H. induction ops as [| op rest IH]; [reflexivity |].
  simpl. destruct op; simpl;
    unfold Tracker.mark_in_progress, Tracker.mark_completed, Tracker.mark_failed;
    destruct (Deployment.status d); try discriminate; exact IH.
Qed.

Lemma changes_in_progress (ops : list Tracker.Op) (d : Deployment.row) :
  Deployment.status d = Deployment.in_progress ->
  Tracker.changes ops d = [] \/
  Tracker.changes ops d = [Deployment.completed] \/
  Tracker.changes ops d = [Deployment.failed].
Proof.
  intros H. induction ops as [| op rest IH]; [left; reflexivity |].
  simpl. destruct op; simpl;
    unfold Tracker.mark_in_progress, Tracker.mark_completed, Tracker.mark_failed;
    rewrite H.
  - exact IH.
  - right; left. cbn [Tracker.with_status Deployment.status].
    now rewrite changes_terminal.
  - right; right. cbn [Tracker.with_status Deployment.status].
    now rewrite changes_terminal.
Qed.

(** C4.  A deployment is opened [pending]; under any sequence of tracker
    calls its status changes along [pending], [in_progress], then
    [completed] or [failed], stopping anywhere on the way: [in_progress] is
    never skipped, and from [completed] or [failed] every call is refused. *)
Theorem deployment_order (ops : list Tracker.Op) (cid : string) (uid : Z) (type : string)
  (payload : json) :
  Deployment.status (Tracker.open cid uid type payload) = Deployment.pending /\
  (Tracker.changes ops (Tracker.open cid uid type payload) = [] \/
   Tracker.changes ops (Tracker.open cid uid type payload) = [Deployment.in_progress] \/
   Tracker.changes ops (Tracker.open cid uid type payload)
     = [Deployment.in_progress; Deployment.completed] \/
   Tracker.changes ops (Tracker.open cid uid type payload)
     = [Deployment.in_progress; Deployment.failed]) /\
  (forall op d, Tracker.terminal (Deployment.status d) = true -> Tracker.apply op d = None).
Proof.
  split; [reflexivity |]. split.
  - generalize (Tracker.open cid uid type payload) (eq_refl :
      Deployment.status (Tracker.open cid uid type payload) = Deployment.pending).
    intros d Hd. induction ops as [| op rest IH]; [left; reflexivity |].
    simpl. destruct op; simpl;
      unfold Tracker.mark_in_progress, Tracker.mark_completed, Tracker.mark_failed;
      rewrite Hd; try exact IH.
    destruct (changes_in_progress rest
                (Tracker.with_status Deployment.in_progress (Deployment.error_message d)
                   (Deployment.vm_id d) d) eq_refl) as [-> | [-> | ->]]; auto.
  - intros op d H. destruct op; simpl;
      unfold Tracker.mark_in_progress, Tracker.mark_completed, Tracker.mark_failed;
      destruct (Deployment.status d); try discriminate; reflexivity.
Qed.

(** ** Two starts of the same VM *)

(** C8, as stated, fails: two starts of the same VM by its owner, resumed
    in turn, are both carried out.  Neither is turned down, and the
    hypervisor receives the start request twice. *)
Lemma concurrent_starts_not_serialized :
  gather [true; false; true; false; true; false] (vm_start alice 100) (vm_start alice 100)
         (world_of connected_client one_vm always_ok)
  = (Ok (VMStarted 100), Ok (VMStarted 100),
     {| proxmox := connected_client;
        database := db_update_vm_status 100 "running"
                      (db_update_vm_status 100 "running" one_vm);
        remote := always_ok;
        http_log := [start_request connected_client (JStr "pve") 100;
                     start_request connected_client (JStr "pve") 100] |}).
Proof. reflexivity. Qed.

Lemma find_map_id (f : VM.row -> VM.row) (vmid : Z) (l : list VM.row) :
  (forall r, VM.id (f r) = VM.id r) ->
  find (fun r => VM.id r =? vmid) (map f l) = option_map f (find (fun r => VM.id r =? vmid) l).
Proof.
  intros Hf. induction l as [| r l IH]; [reflexivity |].
  simpl. rewrite Hf. destruct (VM.id r =? vmid); [reflexivity | exact IH].
Qed.

Lemma start_inv_status (user : Member) (vmid : Z) (node : json) (c : ProxmoxClient)
  (s : string) (w : World) :
  start_inv user vmid node c w ->
  start_inv user vmid node c (with_database (db_update_vm_status vmid s) w).
Proof.
  intros [Hc [Hs [vm [Hvm [Ho Hn]]]]]. split; [exact Hc |]. split; [exact Hs |].
  unfold db_get_vm_by_id in *. simpl. rewrite find_map_id.
  - rewrite Hvm. simpl. eexists. split; [reflexivity |].
    destruct (py_eq_int (VM.vm_id vm) vmid); auto.
  - intros r. destruct (py_eq_int (VM.vm_id r) vmid); reflexivity.
Qed.

Lemma start_inv_send (user : Member) (vmid : Z) (node : json) (c : ProxmoxClient)
  (rq : Request) (w : World) :
  start_inv user vmid node c w -> start_inv user vmid node c (snd (send rq w)).
Proof. intros H. exact H. Qed.

Lemma resume_init (user : Member) (vmid : Z) (node : json) (c : ProxmoxClient) (w : World) :
  start_inv user vmid node c w ->
  resume (vm_start user vmid) w = (start_checked node vmid, w).
Proof.
  intros [_ [_ [vm [Hvm [Ho Hn]]]]]. simpl. rewrite Hvm. simpl.
  apply Z.eqb_eq in Ho. rewrite Ho, Hn. reflexivity.
Qed.

Lemma resume_checked (user : Member) (vmid : Z) (node : json) (c : ProxmoxClient) (w : World) :
  start_inv user vmid node c w ->
  snd (resume (start_checked node vmid) w) = snd (send (start_request c node vmid) w) /\
  (fst (resume (start_checked node vmid) w) = start_sent vmid \/
   exists e, fst (resume (start_checked node vmid) w) = Done (Ok (Failed "start VM" e))).
Proof.
  intros [Hc [Hs _]]. simpl. rewrite Hc, Hs. simpl. split; [reflexivity |].
  destruct (read_response _) as [result | e]; simpl.
  - destruct (py_get result "data" (JObj [])) as [v | e]; simpl.
    + left. reflexivity.
    + right. eexists. reflexivity.
  - right. eexists. reflexivity.
Qed.

Lemma resume_sent (vmid : Z) (w : World) :
  resume (start_sent vmid) w =
  (Done (Ok (VMStarted vmid)), with_database (db_update_vm_status vmid "running") w).
Proof. reflexivity. Qed.

Lemma run_resume {A} (t : Task A) (w : World) :
  run t w = run (fst (resume t w)) (snd (resume t w)).
Proof.
  destruct t as [r | X step k]; simpl; [reflexivity |].
  destruct (step w); reflexivity.
Qed.

Section TwoStarts.
Variables (user : Member) (vmid : Z) (node : json) (c : ProxmoxClient).

Local Abbreviation rq := (start_request c node vmid).

Lemma sent_le_1 (p : Phase) : (sent p <= 1)%nat.
Proof. destruct p; simpl; lia. Qed.

(** Resuming a start moves it to a later phase, sends the request when it
    passes from checked to sent, and keeps what the starts rely on. *)
Lemma resume_phase (p : Phase) (t : Task Reply) (w : World) :
  in_phase user vmid node p t ->
  start_inv user vmid node c w ->
  exists p',
    in_phase user vmid node p' (fst (resume t w)) /\
    start_inv user vmid node c (snd (resume t w)) /\
    (sent p <= sent p')%nat /\
    http_log (snd (resume t w)) = http_log w ++ repeat rq (sent p' - sent p).
Proof.
  intros Hp Hi. destruct p; simpl in Hp.
  - subst t. rewrite (resume_init _ _ _ _ _ Hi). exists Checked.
    simpl. rewrite app_nil_r. auto.
  - subst t. destruct (resume_checked _ _ _ _ _ Hi) as [Hw [Ht | [e Ht]]].
    + exists Sent. rewrite Ht, Hw. simpl. auto using start_inv_send.
    + exists Finished. rewrite Ht, Hw. simpl. split; [eauto |].
      auto using start_inv_send.
  - subst t. rewrite resume_sent. exists Finished. simpl. rewrite app_nil_r.
    split; [eauto |]. auto using start_inv_status.
  - destruct Hp as [r [-> Hr]]. exists Finished. simpl. rewrite app_nil_r.
    split; [eauto |]. auto.
Qed.

(** Left alone, a start in any phase runs to an answer that is not a
    rejection, having sent its request. *)
Lemma run_phase (p : Phase) (t : Task Reply) (w : World) :
  in_phase user vmid node p t ->
  start_inv user vmid node c w ->
  rejected (fst (run t w)) = false /\
  start_inv user vmid node c (snd (run t w)) /\
  http_log (snd (run t w)) = http_log w ++ repeat rq (1 - sent p).
Proof.
  assert (Hfin : forall t w, in_phase user vmid node Finished t ->
            start_inv user vmid node c w ->
            rejected (fst (run t w)) = false /\
            start_inv user vmid node c (snd (run t w)) /\
            http_log (snd (run t w)) = http_log w ++ repeat rq (1 - sent Finished)).
  { intros t0 w0 [r [-> Hr]] Hi. simpl. rewrite app_nil_r. auto. }
  assert (Hsent : forall t w, in_phase user vmid node Sent t ->
            start_inv user vmid node c w ->
            rejected (fst (run t w)) = false /\
            start_inv user vmid node c (snd (run t w)) /\
            http_log (snd (run t w)) = http_log w ++ repeat rq (1 - sent Sent)).
  { intros t0 w0 Ht Hi. simpl in Ht. subst t0. simpl. rewrite app_nil_r.
    auto using start_inv_status. }
  assert (Hchk : forall t w, in_phase user vmid node Checked t ->
            start_inv user vmid node c w ->
            rejected (fst (run t w)) = false /\
            start_inv user vmid node c (snd (run t w)) /\
            http_log (snd (run t w)) = http_log w ++ repeat rq (1 - sent Checked)).
  { intros t0 w0 Ht Hi. simpl in Ht. subst t0. rewrite run_resume.
    destruct (resume_checked _ _ _ _ _ Hi) as [Hw [Ht | [e Ht]]]; rewrite Ht, Hw.
    - destruct (Hsent (start_sent vmid) (snd (send rq w0)) eq_refl
                  (start_inv_send _ _ _ _ _ _ Hi)) as [H1 [H2 H3]].
      split; [exact H1 |]. split; [exact H2 |]. rewrite H3. simpl.
      now rewrite app_nil_r.
    - simpl. auto using start_inv_send. }
  intros Hp Hi. destruct p; auto.
  simpl in Hp. subst t. rewrite run_resume, (resume_init _ _ _ _ _ Hi). simpl fst. simpl snd.
  exact (Hchk _ _ eq_refl Hi).
Qed.

Lemma gather_cons_true {A B} (rest : list bool) (t1 : Task A) (t2 : Task B) (w : World) :
  gather (true :: rest) t1 t2 w = gather rest (fst (resume t1 w)) t2 (snd (resume t1 w)).
Proof. unfold gather. simpl. destruct (resume t1 w). reflexivity. Qed.

Lemma gather_cons_false {A B} (rest : list bool) (t1 : Task A) (t2 : Task B) (w : World) :
  gather (false :: rest) t1 t2 w = gather rest t1 (fst (resume t2 w)) (snd (resume t2 w)).
Proof. unfold gather. simpl. destruct (resume t2 w). reflexivity. Qed.

Lemma gather_phases (schedule : list bool) (p1 p2 : Phase) (t1 t2 : Task Reply) (w : World) :
  in_phase user vmid node p1 t1 ->
  in_phase user vmid node p2 t2 ->
  start_inv user vmid node c w ->
  rejected (fst (fst (gather schedule t1 t2 w))) = false /\
  rejected (snd (fst (gather schedule t1 t2 w))) = false /\
  http_log (snd (gather schedule t1 t2 w)) =
    http_log w ++ repeat rq ((1 - sent p1) + (1 - sent p2)).
Proof.
  revert p1 p2 t1 t2 w.
  induction schedule as [| b rest IH]; intros p1 p2 t1 t2 w H1 H2 Hi.
  - unfold gather. simpl.
    destruct (run_phase p1 t1 w H1 Hi) as [Hr1 [Hi1 Hl1]].
    destruct (run t1 w) as [r1 w1]. simpl in Hr1, Hi1, Hl1.
    destruct (run_phase p2 t2 w1 H2 Hi1) as [Hr2 [_ Hl2]].
    destruct (run t2 w1) as [r2 w2]. simpl in Hr2, Hl2. simpl.
    split; [exact Hr1 |]. split; [exact Hr2 |].
    rewrite Hl2, Hl1, <- app_assoc, <- repeat_app. reflexivity.
  - destruct b.
    + rewrite gather_cons_true.
      destruct (resume_phase p1 t1 w H1 Hi) as [p1' [H1' [Hi' [Hle Hl]]]].
      destruct (IH p1' p2 _ _ _ H1' H2 Hi') as [Hr1 [Hr2 Hlog]].
      split; [exact Hr1 |]. split; [exact Hr2 |].
      rewrite Hlog, Hl, <- app_assoc, <- repeat_app. f_equal. f_equal.
      pose proof (sent_le_1 p1'). lia.
    + rewrite gather_cons_false.
      destruct (resume_phase p2 t2 w H2 Hi) as [p2' [H2' [Hi' [Hle Hl]]]].
      destruct (IH p1 p2' _ _ _ H1 H2' Hi') as [Hr1 [Hr2 Hlog]].
      split; [exact Hr1 |]. split; [exact Hr2 |].
      rewrite Hlog, Hl, <- app_assoc, <- repeat_app. f_equal. f_equal.
      pose proof (sent_le_1 p2'). lia.
Qed.
End TwoStarts.

(** C8, as amended.  Starts of the same VM are not serialized: when its
    owner submits two of them with an open session, then under every
    schedule of their suspension points neither is turned down, and each
    sends its start request, so the hypervisor receives the request twice. *)
Theorem concurrent_starts_both_proceed (schedule : list bool) (user : Member) (vmid : Z)
  (w : World) (vm : VM.row) :
  db_get_vm_by_id (database w) vmid = Some vm ->
  VM.owner_id vm = user_id user ->
  session (proxmox w) = SessionOpen ->
  rejected (fst (fst (gather schedule (vm_start user vmid) (vm_start user vmid) w))) = false /\
  rejected (snd (fst (gather schedule (vm_start user vmid) (vm_start user vmid) w))) = false /\
  http_log (snd (gather schedule (vm_start user vmid) (vm_start user vmid) w)) =
    http_log w ++ [start_request (proxmox w) (VM.node vm) vmid;
                   start_request (proxmox w) (VM.node vm) vmid].
Proof.
  intros Hvm Ho Hs.
  apply (gather_phases user vmid (VM.node vm) (proxmox w) schedule Init Init); try reflexivity.
  split; [reflexivity |]. split; [exact Hs |]. eauto.
Qed.

Lemma concurrent_starts_both_proceed_witness :
  List.length
    (http_log (snd (gather [false; true; true] (vm_start alice 100) (vm_start alice 100)
                           (world_of connected_client one_vm always_denied)))) = 2%nat /\
  rejected (fst (fst (gather [false; true; true] (vm_start alice 100) (vm_start alice 100)
                             (world_of connected_client one_vm always_denied)))) = false.
Proof.
  pose proof (concurrent_starts_both_proceed [false; true; true] alice 100
                (world_of connected_client one_vm always_denied) (vm_of_alice 100)
                eq_refl eq_refl eq_refl) as [Hr [_ Hlog]].
  split; [rewrite Hlog; reflexivity | exact Hr].
Defined.

(** ** What the cleanup selects

    The selection itself is the retention policy: for a retention that is
    not negative, the sorted list splits into the [min retention total]
    newest backups, kept, and the rest, none of them newer than a kept one. *)

Lemma insert_desc_in (x z : Z * json) (l : list (Z * json)) :
  In z (insert_desc x l) <-> z = x \/ In z l.
Proof.
  induction l as [| y l IH]; simpl.
  - intuition.
  - destruct (fst x <? fst y); simpl; rewrite ?IH; intuition.
Qed.

Lemma insert_desc_length (x : Z * json) (l : list (Z * json)) :
  List.length (insert_desc x l) = S (List.length l).
Proof.
  induction l as [| y l IH]; simpl; [reflexivity |].
  destruct (fst x <? fst y); simpl; [now rewrite IH | reflexivity].
Qed.

Lemma sort_desc_length (l : list (Z * json)) : List.length (sort_desc l) = List.length l.
Proof.
  induction l as [| x l IH]; simpl; [reflexivity |].
  now rewrite insert_desc_length, IH.
Qed.

Lemma insert_desc_newest_first (x : Z * json) (l : list (Z * json)) :
  newest_first l -> newest_first (insert_desc x l).
Proof.
  induction 1 as [| y l Hy Hl IH]; simpl.
  - constructor; [intros y [] | constructor].
  - destruct (fst x <? fst y) eqn:E.
    + apply Z.ltb_lt in E. constructor; [| exact IH].
      intros z Hz. apply insert_desc_in in Hz. destruct Hz as [-> | Hz]; [lia | auto].
    + apply Z.ltb_ge in E. constructor; [| constructor; assumption].
      intros z [<- | Hz]; [exact E |]. specialize (Hy z Hz). lia.
Qed.

Lemma sort_desc_newest_first (l : list (Z * json)) : newest_first (sort_desc l).
Proof.
  induction l as [| x l IH]; simpl; [constructor | now apply insert_desc_newest_first].
Qed.

Lemma newest_first_split (l : list (Z * json)) (n : nat) (x y : Z * json) :
  newest_first l -> In x (skipn n l) -> In y (firstn n l) -> fst x <= fst y.
Proof.
  intros H. revert n. induction H as [| z l Hz Hl IH]; intros n Hx Hy.
  - destruct n; contradiction.
  - destruct n as [| n]; [contradiction |]. simpl in Hx, Hy.
    destruct Hy as [<- | Hy]; [| eauto].
    apply Hz. clear - Hx. revert n Hx. induction l as [| a l IHl]; intros n Hx.
    + destruct n; contradiction.
    + destruct n as [| n]; [exact Hx |]. right. exact (IHl n Hx).
Qed.

Lemma cleanup_selection (keyed : list (Z * json)) (retention : Z) :
  0 <= retention ->
  slice_to (sort_desc keyed) retention ++ slice_from (sort_desc keyed) retention
    = sort_desc keyed /\
  List.length (slice_to (sort_desc keyed) retention)
    = Nat.min (Z.to_nat retention) (List.length keyed) /\
  (forall x y, In x (slice_from (sort_desc keyed) retention) ->
               In y (slice_to (sort_desc keyed) retention) -> fst x <= fst y).
Proof.
  intros H. unfold slice_to, slice_from. apply Z.leb_le in H. rewrite H.
  split; [apply firstn_skipn |]. split.
  - rewrite length_firstn, sort_desc_length. reflexivity.
  - intros x y. apply newest_first_split, sort_desc_newest_first.
Qed.

(** ** The catalog of [config.py] *)

(** With the catalog exactly as [config.py] fills it, a creation that passes
    the checks fetches an id and then fails on the missing [template_file]
    key: nothing is created. *)
Lemma default_catalog_lacks_template_file :
  run (vm_create settings alice "sixth" "ubuntu-22.04" 2048 2 32 (Some "pve"))
      (world_of connected_client five_vms creation_answers)
  = (Ok (Failed "create VM" (KeyError "template_file")),
     {| proxmox := connected_client; database := five_vms; remote := creation_answers;
        http_log := [api_request connected_client "GET" [Lit "cluster/nextid"] None] |}).
Proof. reflexivity. Qed.

(** * Further properties of the gateway *)

(** ** [connect] and [_authenticate] *)

(** X1.  A [connect] whose credentials the hypervisor turns down, with any
    status other than 200, raises the authentication failure with that
    status, whatever the constructor of [ProxmoxAPI] would do: it is not
    reached.  Exactly one request was sent, the [POST] of the credentials;
    the session that [connect] created stays on the client; the ticket, the
    token, [api] and the registry are as they were. *)
Theorem connect_refused
  (ProxmoxAPI : string -> string -> string -> World -> Res unit * World)
  (w : World) (st : Z) (body : option json) :
  remote w (List.length (http_log w)) (auth_request (proxmox w)) = HttpResponse st body ->
  (st =? 200) = false ->
  run (connect ProxmoxAPI) w =
    (Raise (AuthenticationFailed st),
     {| proxmox := set_session SessionOpen (proxmox w);
        database := database w;
        remote := remote w;
        http_log := http_log w ++ [auth_request (proxmox w)] |}).
Proof.
  intros Hr Hst.
  unfold connect, await. cbn [run]. unfold authenticate_step.
  cbn [with_proxmox proxmox session set_session send http_log remote database].
  change (auth_request _) with (auth_request (proxmox w)).
  rewrite Hr, Hst. reflexivity.
Qed.

Lemma connect_refused_witness :
  run (connect logs_in) (world_of pve_client empty_db always_denied) =
    (Raise (AuthenticationFailed 403),
     {| proxmox := set_session SessionOpen pve_client;
        database := empty_db;
        remote := always_denied;
        http_log := [auth_request pve_client] |}).
Proof.
  exact (connect_refused logs_in (world_of pve_client empty_db always_denied) 403
           (Some (JObj [("errors", JObj [("message", JStr "Permission check failed")])]))
           eq_refl eq_refl).
Defined.

(** X2.  The ticket and the token that the hypervisor hands out are the
    ones the next request carries: with an open session, an
    [_authenticate] answered with 200 and a [data] object holding a ticket
    and a [CSRFPreventionToken], both strings, returns, and a
    [_make_request] that follows sends one request with that ticket in its
    [Authorization] header and that token in its [CSRFPreventionToken]
    header. *)
Theorem authenticate_then_request (w : World) (top d : list (string * json))
  (ticket csrf : string) (m : string) (e : fstring) (data : option json) :
  session (proxmox w) = SessionOpen ->
  remote w (List.length (http_log w)) (auth_request (proxmox w))
    = HttpResponse 200 (Some (JObj top)) ->
  dict_lookup top "data" = Some (JObj d) ->
  dict_lookup d "ticket" = Some (JStr ticket) ->
  dict_lookup d "CSRFPreventionToken" = Some (JStr csrf) ->
  fst (run _authenticate w) = Ok tt /\
  http_log (snd (run (do _authenticate ;; _make_request m e data) w)) =
    http_log w ++
    [auth_request (proxmox w);
     {| rq_method := m;
        rq_url := Lit "https://" :: Lit (host (proxmox w)) :: Lit ":8006/api2/json/" :: e;
        rq_headers := [("Authorization", [Lit "PVEAPIToken="; Fmt (JStr ticket)]);
                       ("CSRFPreventionToken", [Fmt (JStr csrf)])];
        rq_body := match data with Some j => JsonBody j | None => NoBody end |}].
Proof.
  intros Hs Hr Htop Ht Hc.
  assert (Hauth : run _authenticate w =
            (Ok tt,
             with_proxmox (set_auth_csrf (JStr csrf))
               (with_proxmox (set_auth_ticket (JStr ticket))
                  (snd (send (auth_request (proxmox w)) w))))).
  { unfold _authenticate, await. cbn [run]. unfold authenticate_step.
    rewrite Hs. cbn [send]. rewrite Hr. cbn [Z.eqb Pos.eqb].
    unfold py_getitem at 1. rewrite Htop.
    cbn [res_bind]. unfold py_getitem at 1. rewrite Ht.
    unfold py_getitem at 1. rewrite Htop. cbn [res_bind]. unfold py_getitem. rewrite Hc.
    reflexivity. }
  split; [now rewrite Hauth |].
  rewrite run_bind, Hauth. cbn. rewrite Hs. cbn. rewrite <- app_assoc. reflexivity.
Qed.

Lemma authenticate_then_request_witness :
  http_log (snd (run (do _authenticate ;; _make_request "GET" [Lit "nodes"] None)
      (world_of (set_session SessionOpen pve_client) empty_db
         (answers [HttpResponse 200
            (Some (JObj [("data", JObj [("ticket", JStr "PVE:root@pam:65F0");
                                        ("CSRFPreventionToken", JStr "65F0:abc")])]))]))))
  = [auth_request pve_client;
     {| rq_method := "GET";
        rq_url := [Lit "https://"; Lit "pve.example.org"; Lit ":8006/api2/json/"; Lit "nodes"];
        rq_headers := [("Authorization", [Lit "PVEAPIToken="; Fmt (JStr "PVE:root@pam:65F0")]);
                       ("CSRFPreventionToken", [Fmt (JStr "65F0:abc")])];
        rq_body := NoBody |}].
Proof.
  exact (proj2 (authenticate_then_request
    (world_of (set_session SessionOpen pve_client) empty_db
       (answers [HttpResponse 200
          (Some (JObj [("data", JObj [("ticket", JStr "PVE:root@pam:65F0");
                                      ("CSRFPreventionToken", JStr "65F0:abc")])]))]))
    [("data", JObj [("ticket", JStr "PVE:root@pam:65F0");
                    ("CSRFPreventionToken", JStr "65F0:abc")])]
    [("ticket", JStr "PVE:root@pam:65F0"); ("CSRFPreventionToken", JStr "65F0:abc")]
    "PVE:root@pam:65F0" "65F0:abc" "GET" [Lit "nodes"] None
    eq_refl eq_refl eq_refl eq_refl eq_refl)).
Defined.

(** X3.  [_authenticate] stores the ticket before it looks the token up:
    when the answer holds a ticket and no [CSRFPreventionToken], [connect]
    raises [KeyError], and the client is left with the new ticket and the
    token it had before.  The constructor of [ProxmoxAPI] is not reached,
    whatever it would do. *)
Theorem connect_without_token
  (ProxmoxAPI : string -> string -> string -> World -> Res unit * World)
  (w : World) (top d : list (string * json)) (ticket : json) :
  remote w (List.length (http_log w)) (auth_request (proxmox w))
    = HttpResponse 200 (Some (JObj top)) ->
  dict_lookup top "data" = Some (JObj d) ->
  dict_lookup d "ticket" = Some ticket ->
  dict_lookup d "CSRFPreventionToken" = None ->
  fst (run (connect ProxmoxAPI) w) = Raise (KeyError "CSRFPreventionToken") /\
  _auth_ticket (proxmox (snd (run (connect ProxmoxAPI) w))) = ticket /\
  _auth_csrf (proxmox (snd (run (connect ProxmoxAPI) w))) = _auth_csrf (proxmox w) /\
  api (proxmox (snd (run (connect ProxmoxAPI) w))) = api (proxmox w).
Proof.
  intros Hr Htop Ht Hc.
  assert (Hconn : run (connect ProxmoxAPI) w =
            (Raise (KeyError "CSRFPreventionToken"),
             with_proxmox (set_auth_ticket ticket)
               (snd (send (auth_request (proxmox w))
                          (with_proxmox (set_session SessionOpen) w))))).
  { unfold connect, await. cbn [run]. unfold authenticate_step.
    cbn [with_proxmox proxmox session set_session send http_log remote database].
    change (auth_request _) with (auth_request (proxmox w)).
    rewrite Hr. cbn [Z.eqb Pos.eqb]. unfold py_getitem at 1. rewrite Htop.
    cbn [res_bind]. unfold py_getitem at 1. rewrite Ht.
    unfold py_getitem at 1. rewrite Htop. cbn [res_bind]. unfold py_getitem. rewrite Hc.
    reflexivity. }
  rewrite Hconn. repeat split.
Qed.

Lemma connect_without_token_witness :
  fst (run (connect logs_in) (world_of connected_client empty_db
         (answers [HttpResponse 200
            (Some (JObj [("data", JObj [("ticket", JStr "fresh")])]))])))
    = Raise (KeyError "CSRFPreventionToken") /\
  _auth_ticket (proxmox (snd (run (connect logs_in) (world_of connected_client empty_db
         (answers [HttpResponse 200
            (Some (JObj [("data", JObj [("ticket", JStr "fresh")])]))]))))) = JStr "fresh" /\
  _auth_csrf (proxmox (snd (run (connect logs_in) (world_of connected_client empty_db
         (answers [HttpResponse 200
            (Some (JObj [("data", JObj [("ticket", JStr "fresh")])]))]))))) = JStr "csrf".
Proof.
  pose proof (connect_without_token logs_in
    (world_of connected_client empty_db
       (answers [HttpResponse 200 (Some (JObj [("data", JObj [("ticket", JStr "fresh")])]))]))
    [("data", JObj [("ticket", JStr "fresh")])] [("ticket", JStr "fresh")] (JStr "fresh")
    eq_refl eq_refl eq_refl eq_refl) as [H1 [H2 [H3 _]]].
  split; [exact H1 |]. split; [exact H2 | exact H3].
Defined.

(** ** What a request returns *)

Lemma make_request_open (m : string) (e : fstring) (d : option json) (w : World) :
  session (proxmox w) = SessionOpen ->
  run (_make_request m e d) w =
  (read_response (remote w (List.length (http_log w)) (api_request (proxmox w) m e d)),
   snd (send (api_request (proxmox w) m e d) w)).
Proof. intros H. simpl. rewrite H. reflexivity. Qed.

(** X4.  [get_next_vmid] falls back to 100 only when the answer has no
    [data] key at all: with an open session and a 200 answer that is an
    object, it returns the value under [data] as it is (also [null]), and
    100 when the key is missing. *)
Theorem next_vmid_default (w : World) (fields : list (string * json)) :
  session (proxmox w) = SessionOpen ->
  remote w (List.length (http_log w))
         (api_request (proxmox w) "GET" [Lit "cluster/nextid"] None)
    = HttpResponse 200 (Some (JObj fields)) ->
  fst (run get_next_vmid w) =
    Ok (match dict_lookup fields "data" with
        | Some vmid => vmid
        | None => JNum 100
        end).
Proof.
  intros Hs Hr. unfold get_next_vmid, request_data. rewrite run_bind.
  rewrite make_request_open, Hr by assumption.
  simpl. destruct (dict_lookup fields "data"); reflexivity.
Qed.

Lemma next_vmid_default_witness :
  fst (run get_next_vmid
         (world_of connected_client empty_db (answers [HttpResponse 200 (Some (JObj []))])))
    = Ok (JNum 100) /\
  fst (run get_next_vmid (world_of connected_client empty_db always_ok)) = Ok JNull.
Proof.
  split.
  - exact (next_vmid_default
             (world_of connected_client empty_db (answers [HttpResponse 200 (Some (JObj []))]))
             [] eq_refl eq_refl).
  - exact (next_vmid_default (world_of connected_client empty_db always_ok)
             [("data", JNull)] eq_refl eq_refl).
Defined.

(** X5.  An answer other than 200 is raised with the message found under
    [errors.message], or with "Unknown error" when the body has no [errors]
    or the [errors] object has no [message]; when the body is not an object,
    or its [errors] is not one (for instance [null]), the request raises
    [AttributeError] instead and the hypervisor's error is lost. *)
Theorem api_error_message (w : World) (m : string) (e : fstring) (d : option json)
  (st : Z) (result : json) :
  session (proxmox w) = SessionOpen ->
  remote w (List.length (http_log w)) (api_request (proxmox w) m e d)
    = HttpResponse st (Some result) ->
  st <> 200 ->
  fst (run (_make_request m e d) w) =
    match result with
    | JObj fields =>
        match dict_lookup fields "errors" with
        | None => Raise (ApiRequestFailed (JStr "Unknown error"))
        | Some (JObj errors) =>
            Raise (ApiRequestFailed
                     (match dict_lookup errors "message" with
                      | Some error_msg => error_msg
                      | None => JStr "Unknown error"
                      end))
        | Some _ => Raise (AttributeError "get")
        end
    | _ => Raise (AttributeError "get")
    end.
Proof.
  intros Hs Hr Hst.
  rewrite make_request_open, Hr by assumption. simpl.
  apply Z.eqb_neq in Hst. rewrite Hst.
  destruct result as [| b | n | s | items | fields]; try reflexivity.
  simpl. destruct (dict_lookup fields "errors") as [errors |]; [| reflexivity].
  destruct errors as [| b | n | s | items | errs]; try reflexivity.
  simpl. destruct (dict_lookup errs "message"); reflexivity.
Qed.

Lemma api_error_message_witness :
  fst (run (_make_request "POST" [Lit "nodes/pve/qemu"] None)
           (world_of connected_client empty_db always_denied))
    = Raise (ApiRequestFailed (JStr "Permission check failed")) /\
  fst (run (_make_request "POST" [Lit "nodes/pve/qemu"] None)
           (world_of connected_client empty_db
              (answers [HttpResponse 500 (Some (JObj [("errors", JNull)]))])))
    = Raise (AttributeError "get").
Proof.
  split.
  - refine (api_error_message (world_of connected_client empty_db always_denied)
              "POST" [Lit "nodes/pve/qemu"] None 403 _ eq_refl eq_refl _). discriminate.
  - refine (api_error_message
              (world_of connected_client empty_db
                 (answers [HttpResponse 500 (Some (JObj [("errors", JNull)]))]))
              "POST" [Lit "nodes/pve/qemu"] None 500 _ eq_refl eq_refl _). discriminate.
Defined.

(** ** Listing the VMs of all nodes *)

Lemma run_try_ret {A} (t : Task A) (a0 : A) (w : World) :
  run (try_except t (fun _ => ret a0)) w =
  (match fst (run t w) with Ok a => Ok a | Raise _ => Ok a0 end, snd (run t w)).
Proof.
  rewrite run_try_except. destruct (run t w) as [[a | e] w']; reflexivity.
Qed.

(** X6.  [get_vms] over all nodes survives the failure of any node: when
    every node entry names its node, the loop returns a list in every world,
    whatever the hypervisor answers for the single nodes and whether or not
    there is a session. *)
Theorem collect_vms_total (nodes : list json) (all_vms : list json) (w : World) :
  forallb names_node nodes = true ->
  exists vms, fst (run (collect_vms nodes all_vms) w) = Ok (JArr vms).
Proof.
  revert all_vms w. induction nodes as [| node_info rest IH]; intros all_vms w H.
  - exists all_vms. reflexivity.
  - simpl in H. apply andb_true_iff in H as [Hn Hrest].
    cbn [collect_vms]. unfold names_node in Hn.
    destruct (py_getitem node_info "node") as [node_name | e]; [| discriminate].
    unfold lift at 1. cbn [bind]. rewrite run_bind, run_try_ret.
    destruct (fst (run _ w)) as [vms | e]; apply IH; exact Hrest.
Qed.

Lemma collect_vms_total_witness :
  exists vms,
    fst (run (collect_vms [JObj [("node", JStr "pve1")]; JObj [("node", JStr "pve2")]] [])
             (world_of pve_client empty_db always_denied)) = Ok (JArr vms).
Proof.
  exact (collect_vms_total [JObj [("node", JStr "pve1")]; JObj [("node", JStr "pve2")]] []
           (world_of pve_client empty_db always_denied) eq_refl).
Defined.

Lemma dict_lookup_set_same {V} (d : list (string * V)) (k : string) (v : V) :
  dict_lookup (dict_set d k v) k = Some v.
Proof.
  induction d as [| [k' v'] d IH]; simpl.
  - now rewrite String.eqb_refl.
  - destruct (String.eqb k' k) eqn:E; simpl.
    + now rewrite String.eqb_refl.
    + now rewrite E.
Qed.

Lemma tag_vms_has_node (node_name : json) (vms all_vms : list json) :
  forallb has_node all_vms = true ->
  forallb has_node (tag_vms node_name vms all_vms) = true.
Proof.
  revert all_vms. induction vms as [| vm rest IH]; intros all_vms H; simpl; [exact H |].
  destruct vm as [| b | n | s | items | fields]; simpl; try exact H.
  apply IH. rewrite forallb_app, H. simpl.
  unfold has_node, py_getitem. now rewrite dict_lookup_set_same.
Qed.

Lemma collect_vms_has_node (nodes : list json) (all_vms : list json) (w : World) (v : json) :
  forallb has_node all_vms = true ->
  fst (run (collect_vms nodes all_vms) w) = Ok v ->
  exists vms, v = JArr vms /\ forallb has_node vms = true.
Proof.
  revert all_vms w. induction nodes as [| node_info rest IH]; intros all_vms w H Hrun.
  - simpl in Hrun. injection Hrun as <-. eauto.
  - cbn [collect_vms] in Hrun.
    destruct (py_getitem node_info "node") as [node_name | e]; [| discriminate].
    unfold lift at 1 in Hrun. cbn [bind] in Hrun.
    rewrite run_bind, run_try_ret in Hrun.
    match type of Hrun with
    | context [run ?t w] => remember (run t w) as res eqn:Eres
    end.
    destruct res as [[vms | e] w1]; simpl in Hrun.
    + (* the listing of this node was appended *)
      assert (Hvms : forallb has_node vms = true).
      { clear - Eres H.
        rewrite run_bind in Eres. destruct (run (_make_request _ _ _) w) as [[r | e] w2];
          [| discriminate].
        rewrite run_bind, run_lift in Eres.
        destruct (py_get r "data" (JArr [])) as [data | e]; [| discriminate].
        rewrite run_bind, run_lift in Eres.
        destruct (py_iter data) as [items | e]; [| discriminate].
        simpl in Eres. injection Eres as -> _. now apply tag_vms_has_node. }
      exact (IH vms w1 Hvms Hrun).
    + exact (IH all_vms w1 H Hrun).
Qed.

(** X7.  Every VM that [get_vms] returns for all nodes is a dict that
    says which node it is on: the listing over all nodes, when it returns,
    returns a list whose entries all have a ["node"] key. *)
Theorem get_vms_all_tagged (w : World) (v : json) :
  fst (run (get_vms JNull) w) = Ok v ->
  exists vms, v = JArr vms /\ forallb has_node vms = true.
Proof.
  unfold get_vms. cbn [truthy]. cbv iota. rewrite run_bind.
  destruct (run get_nodes w) as [[nodes | e] w1]; [| discriminate].
  rewrite run_bind, run_lift.
  destruct (py_iter nodes) as [node_list | e]; [| discriminate].
  apply collect_vms_has_node. reflexivity.
Qed.

Lemma get_vms_all_tagged_witness :
  exists vms,
    JArr [JObj [("vmid", JNum 100); ("node", JStr "pve")]] = JArr vms /\
    forallb has_node vms = true.
Proof.
  exact (get_vms_all_tagged
    (world_of connected_client empty_db
       (answers [HttpResponse 200 (Some (JObj [("data", JArr [JObj [("node", JStr "pve")]])]));
                 HttpResponse 200 (Some (JObj [("data", JArr [JObj [("vmid", JNum 100)]])]))]))
    (JArr [JObj [("vmid", JNum 100); ("node", JStr "pve")]]) eq_refl).
Defined.

Lemma collect_vms_requests (nodes : list json) (all_vms : list json) (w : World) :
  session (proxmox w) = SessionOpen ->
  forallb names_node nodes = true ->
  http_log (snd (run (collect_vms nodes all_vms) w)) =
  http_log w ++ map (fun node_info => qemu_request (proxmox w) (node_name_of node_info)) nodes.
Proof.
  revert all_vms w. induction nodes as [| node_info rest IH]; intros all_vms w Hs H.
  - simpl. now rewrite app_nil_r.
  - simpl in H. apply andb_true_iff in H as [Hn Hrest].
    cbn [collect_vms map]. unfold names_node in Hn. unfold node_name_of at 1.
    destruct (py_getitem node_info "node") as [node_name | e]; [| discriminate].
    unfold lift at 1. cbn [bind]. rewrite run_bind, run_try_ret.
    assert (Hw : snd (run (vms <- _make_request "GET" [Lit "nodes/"; Fmt node_name; Lit "/qemu"]
                                  None ;;
                           data <- lift (py_get vms "data" (JArr [])) ;;
                           items <- lift (py_iter data) ;;
                           ret (tag_vms node_name items all_vms)) w)
                 = snd (send (qemu_request (proxmox w) node_name) w)).
    { rewrite run_bind, make_request_open by assumption.
      destruct (read_response _) as [r | e]; [| reflexivity].
      rewrite run_bind, run_lift. destruct (py_get r "data" (JArr [])); [| reflexivity].
      rewrite run_bind, run_lift. destruct (py_iter a); reflexivity. }
    rewrite Hw.
    match goal with
    | |- context [match ?x with Ok a => Ok a | Raise _ => Ok all_vms end] =>
        destruct x as [vms | e]
    end;
      rewrite IH by assumption; simpl; rewrite <- app_assoc; reflexivity.
Qed.

(** X8.  With an open session, [get_vms] over all nodes sends the listing
    of the nodes and then exactly one request per node listed, in order,
    whatever the single nodes answer. *)
Theorem get_vms_all_requests (w : World) (fields : list (string * json)) (nodes : list json) :
  session (proxmox w) = SessionOpen ->
  remote w (List.length (http_log w)) (api_request (proxmox w) "GET" [Lit "nodes"] None)
    = HttpResponse 200 (Some (JObj fields)) ->
  dict_lookup fields "data" = Some (JArr nodes) ->
  forallb names_node nodes = true ->
  http_log (snd (run (get_vms JNull) w)) =
  http_log w ++
  api_request (proxmox w) "GET" [Lit "nodes"] None ::
  map (fun node_info => qemu_request (proxmox w) (node_name_of node_info)) nodes.
Proof.
  intros Hs Hr Hd Hn. unfold get_vms. cbn [truthy]. cbv iota.
  rewrite run_bind. unfold get_nodes, request_data.
  rewrite run_bind, make_request_open, Hr by assumption.
  simpl read_response. cbv iota. rewrite run_lift. unfold py_get. rewrite Hd.
  rewrite run_bind, run_lift. cbn [py_iter].
  rewrite collect_vms_requests by assumption. simpl. now rewrite <- app_assoc.
Qed.

Lemma get_vms_all_requests_witness :
  map rq_method
    (http_log (snd (run (get_vms JNull)
       (world_of connected_client empty_db
          (answers [HttpResponse 200
             (Some (JObj [("data", JArr [JObj [("node", JStr "pve1")];
                                         JObj [("node", JStr "pve2")]])]));
             TransportFailure])))))
  = ["GET"; "GET"; "GET"].
Proof.
  rewrite (get_vms_all_requests
    (world_of connected_client empty_db
       (answers [HttpResponse 200
          (Some (JObj [("data", JArr [JObj [("node", JStr "pve1")];
                                      JObj [("node", JStr "pve2")]])]));
          TransportFailure]))
    [("data", JArr [JObj [("node", JStr "pve1")]; JObj [("node", JStr "pve2")]])]
    [JObj [("node", JStr "pve1")]; JObj [("node", JStr "pve2")]]
    eq_refl eq_refl eq_refl eq_refl).
  reflexivity.
Defined.

(** ** Templates of a storage *)

Lemma filter_templates_dicts (items templates : list json) :
  forallb is_dict items = true ->
  filter_templates items templates = Ok (templates ++ filter is_vztmpl items).
Proof.
  revert templates. induction items as [| item rest IH]; intros templates H; simpl.
  - now rewrite app_nil_r.
  - simpl in H. apply andb_true_iff in H as [Hi Hrest].
    destruct item as [| b | n | s | l | fields]; try discriminate.
    unfold is_vztmpl. simpl.
    destruct (dict_lookup fields "content") as [c |]; simpl.
    + rewrite IH by assumption. destruct (py_eq_str c "vztmpl"); simpl.
      * now rewrite <- app_assoc.
      * reflexivity.
    + apply IH. assumption.
Qed.

(** X9.  [get_templates] returns the entries of the storage's content
    whose [content] is ["vztmpl"], in the order listed, and nothing else:
    with an open session and a 200 answer whose [data] is a list of dicts,
    the result is that list filtered. *)
Theorem get_templates_filters (node storage : json) (w : World)
  (fields : list (string * json)) (items : list json) :
  session (proxmox w) = SessionOpen ->
  remote w (List.length (http_log w))
    (api_request (proxmox w) "GET"
       [Lit "nodes/"; Fmt node; Lit "/storage/"; Fmt storage; Lit "/content"] None)
    = HttpResponse 200 (Some (JObj fields)) ->
  dict_lookup fields "data" = Some (JArr items) ->
  forallb is_dict items = true ->
  fst (run (get_templates node storage) w) = Ok (JArr (filter is_vztmpl items)).
Proof.
  intros Hs Hr Hd Hi. unfold get_templates.
  rewrite run_bind, make_request_open, Hr by assumption.
  simpl read_response. cbv iota. rewrite run_bind, run_lift. unfold py_get. rewrite Hd.
  rewrite run_bind, run_lift. cbn [py_iter]. rewrite run_bind, run_lift.
  rewrite filter_templates_dicts by assumption. reflexivity.
Qed.

Lemma get_templates_filters_witness :
  fst (run (get_templates (JStr "pve") (JStr "local"))
    (world_of connected_client empty_db
       (answers [HttpResponse 200
          (Some (JObj [("data",
             JArr [JObj [("volid", JStr "local:iso/debian.iso"); ("content", JStr "iso")];
                   JObj [("volid", JStr "local:vztmpl/alpine.tar.zst");
                         ("content", JStr "vztmpl")];
                   JObj [("volid", JStr "local:backup/dump.vma")]])]))])))
  = Ok (JArr [JObj [("volid", JStr "local:vztmpl/alpine.tar.zst"); ("content", JStr "vztmpl")]]).
Proof.
  exact (get_templates_filters (JStr "pve") (JStr "local")
    (world_of connected_client empty_db
       (answers [HttpResponse 200
          (Some (JObj [("data",
             JArr [JObj [("volid", JStr "local:iso/debian.iso"); ("content", JStr "iso")];
                   JObj [("volid", JStr "local:vztmpl/alpine.tar.zst");
                         ("content", JStr "vztmpl")];
                   JObj [("volid", JStr "local:backup/dump.vma")]])]))]))
    _ _ eq_refl eq_refl eq_refl eq_refl).
Defined.

(** * Further properties of the commands *)

(** ** Who may use the commands *)

(** X10.  A member has permission exactly when the member's id is among
    the administrators, or one of the member's roles is among the allowed
    roles. *)
Theorem has_permission_iff (cfg : Settings) (user : Member) :
  has_permission cfg user = true <->
  In (user_id user) (admin_user_ids cfg) \/
  exists role, In role (roles user) /\ In role (allowed_roles cfg).
Proof.
  unfold has_permission, is_admin. split.
  - destruct (existsb (Z.eqb (user_id user)) (admin_user_ids cfg)) eqn:Ea.
    + intros _. left. apply existsb_exists in Ea as [a [Ha E]].
      apply Z.eqb_eq in E. now subst a.
    + intros H. right. apply existsb_exists in H as [role_name [Hr H]].
      apply existsb_exists in H as [role [Hu E]]. apply String.eqb_eq in E. subst role_name.
      eauto.
  - intros [Ha | [role [Hu Hr]]].
    + assert (E : existsb (Z.eqb (user_id user)) (admin_user_ids cfg) = true).
      { apply existsb_exists. exists (user_id user). split; [exact Ha | apply Z.eqb_refl]. }
      now rewrite E.
    + destruct (existsb (Z.eqb (user_id user)) (admin_user_ids cfg)); [reflexivity |].
      apply existsb_exists. exists role. split; [exact Hr |].
      apply existsb_exists. exists role. split; [exact Hu | apply String.eqb_refl].
Qed.

(** ** The registry follows the hypervisor *)

Lemma request_data_database (m : string) (e : fstring) (d : option json) (dflt : json)
  (w : World) :
  database (snd (run (request_data m e d dflt) w)) = database w.
Proof.
  destruct (request_data_world m e d dflt w) as [-> | ->]; reflexivity.
Qed.

Lemma owned_vm_cases (what : string) (user : Member) (vmid : Z) (k : VM.row -> Task Reply)
  (w : World) :
  run (command what (owned_vm user vmid k)) w = (Ok NotFoundOrNotOwned, w) \/
  exists vm, db_get_vm_by_id (database w) vmid = Some vm /\
             VM.owner_id vm = user_id user /\
             run (command what (owned_vm user vmid k)) w = run (command what (k vm)) w.
Proof.
  destruct (db_get_vm_by_id (database w) vmid) as [vm |] eqn:Hvm.
  - destruct (VM.owner_id vm =? user_id user) eqn:Ho.
    + apply Z.eqb_eq in Ho. right. exists vm. split; [reflexivity |]. split; [exact Ho |].
      now apply owned_vm_accepts.
    + apply Z.eqb_neq in Ho. left. apply owned_vm_rejects. right. eauto.
  - left. apply owned_vm_rejects. left. exact Hvm.
Qed.

Lemma cleanup_keeps_registry (cfg : Settings) (user : Member) (vmid : Z) (w : World) :
  database (snd (run (backup_cleanup cfg user vmid) w)) = database w.
Proof. apply cleanup_never_removes. Qed.

(** The two outcomes of the ownership check that opens a command. *)
Ltac owned_cases vm :=
  match goal with
  | |- context [run (command ?what (owned_vm ?user ?vmid ?k)) ?w] =>
      let Hc := fresh "Hc" in
      destruct (owned_vm_cases what user vmid k w) as [Hc | [vm [_ [_ Hc]]]];
      rewrite Hc; clear Hc
  end.

Lemma read_response_ok (resp : Response) (r : json) :
  read_response resp = Ok r -> resp = HttpResponse 200 (Some r).
Proof.
  destruct resp as [| st [result |]]; simpl; try discriminate.
  destruct (st =? 200) eqn:Est.
  - apply Z.eqb_eq in Est. subst st. now intros [= ->].
  - destruct (py_get result "errors" (JObj [])) as [errors | ex]; simpl; [| discriminate].
    destruct (py_get errors "message" (JStr "Unknown error")); simpl; discriminate.
Qed.

(** A request either raises and leaves the registry alone, or returns:
    then it was sent and answered with 200 and a body that parses. *)
Lemma request_data_cases (m : string) (e : fstring) (d : option json) (dflt : json)
  (w : World) :
  (exists ex w1, run (request_data m e d dflt) w = (Raise ex, w1) /\
                 database w1 = database w) \/
  (exists r body,
     run (request_data m e d dflt) w = (Ok r, snd (send (api_request (proxmox w) m e d) w)) /\
     remote w (List.length (http_log w)) (api_request (proxmox w) m e d)
       = HttpResponse 200 (Some body)).
Proof.
  unfold request_data. rewrite run_bind.
  destruct (session (proxmox w)) eqn:Hs.
  - left. rewrite make_request_no_session by assumption. eexists; eexists; split; reflexivity.
  - rewrite make_request_open by assumption.
    destruct (read_response _) as [result | ex] eqn:Er.
    + apply read_response_ok in Er. rewrite run_lift.
      destruct (py_get result "data" dflt) as [r | ex].
      * right. exists r, result. split; [reflexivity | exact Er].
      * left. eexists; eexists; split; reflexivity.
    + left. eexists; eexists; split; reflexivity.
  - left. simpl. rewrite Hs. eexists; eexists; split; reflexivity.
Qed.

(** A changing call of the gateway, a write to the registry, the answer:
    the write happens only when the call returned. *)
Lemma write_after_call (what m : string) (e : fstring) (d : option json) (dflt : json)
  (f : DatabaseManager -> DatabaseManager) (done : Reply) (w : World) :
  String.eqb m "GET" = false ->
  database (snd (run (command what (do request_data m e d dflt ;; do db_write f ;; ret done))
                     w)) = database w \/
  accepted_change w
    (snd (run (command what (do request_data m e d dflt ;; do db_write f ;; ret done)) w)).
Proof.
  intros Hm. unfold command. rewrite run_try_except, run_bind.
  destruct (request_data_cases m e d dflt w) as [[ex [w1 [-> Hdb]]] | [r [body [-> Hr]]]].
  - left. exact Hdb.
  - right. exists [], (api_request (proxmox w) m e d), body. simpl.
    rewrite app_nil_r. repeat split; assumption.
Qed.

(** X11.  A start, stop, reboot, delete, resize, clone, backup or backup
    cleanup writes the registry only after the hypervisor accepted the
    change: when the command ends, either the registry is as it was, or the
    last request sent was the one asking for the change, every request
    before it was a [GET], and the hypervisor answered it with 200. *)
Theorem registry_written_after_acceptance (cfg : Settings) (user : Member) (op : MutatingOp)
  (w : World) :
  database (snd (run (mutate cfg user op) w)) = database w \/
  accepted_change w (snd (run (mutate cfg user op) w)).
Proof.
  destruct op; cbv beta iota delta [mutate].
  - (* start *)
    unfold vm_start. owned_cases vm; [left; reflexivity |].
    now apply write_after_call.
  - (* stop *)
    unfold vm_stop. owned_cases vm; [left; reflexivity |].
    now apply write_after_call.
  - (* reboot *)
    left. unfold vm_reboot.
    owned_cases vm; [reflexivity |].
    unfold command. rewrite run_try_except, run_bind.
    pose proof (request_data_database "POST" (vm_path (VM.node vm) vmid "/status/reboot")
                  None (JObj []) w) as Hdb.
    unfold reboot_vm. destruct (run (request_data _ _ _ _) w) as [[r | e] w1]; exact Hdb.
  - (* delete *)
    unfold vm_delete. owned_cases vm; [left; reflexivity |].
    now apply write_after_call.
  - (* resize *)
    unfold vm_resize. owned_cases vm; [left; reflexivity |].
    destruct (new_size <=? VM.disk_size vm); [left; reflexivity |].
    now apply write_after_call.
  - (* clone *)
    unfold vm_clone. owned_cases vm; [left; reflexivity |].
    unfold command. rewrite run_try_except, run_bind.
    destruct new_vmid as [n |]; [destruct (n =? 0) |].
    + (* the id is fetched *)
      unfold get_next_vmid.
      destruct (request_data_cases "GET" [Lit "cluster/nextid"] None (JNum 100) w)
        as [[ex [w1 [-> Hdb]]] | [newid [body1 [-> _]]]]; [left; exact Hdb |].
      rewrite run_bind. unfold clone_vm.
      match goal with
      | |- context [run (request_data ?m ?e ?d ?dflt) ?w1] =>
          destruct (request_data_cases m e d dflt w1)
            as [[ex [w2 [-> Hdb]]] | [r [body [-> Hr]]]]
      end.
      * left. exact Hdb.
      * right. eexists [_], _, body. simpl in *.
        rewrite <- app_assoc. repeat split. exact Hr.
    + (* the id is given *)
      cbn [run ret]. rewrite run_bind. unfold clone_vm.
      match goal with
      | |- context [run (request_data ?m ?e ?d ?dflt) ?w1] =>
          destruct (request_data_cases m e d dflt w1)
            as [[ex [w2 [-> Hdb]]] | [r [body [-> Hr]]]]
      end.
      * left. exact Hdb.
      * right. eexists [], _, body. simpl in *.
        rewrite app_nil_r. repeat split. exact Hr.
    + (* no id: it is fetched *)
      unfold get_next_vmid.
      destruct (request_data_cases "GET" [Lit "cluster/nextid"] None (JNum 100) w)
        as [[ex [w1 [-> Hdb]]] | [newid [body1 [-> _]]]]; [left; exact Hdb |].
      rewrite run_bind. unfold clone_vm.
      match goal with
      | |- context [run (request_data ?m ?e ?d ?dflt) ?w1] =>
          destruct (request_data_cases m e d dflt w1)
            as [[ex [w2 [-> Hdb]]] | [r [body [-> Hr]]]]
      end.
      * left. exact Hdb.
      * right. eexists [_], _, body. simpl in *.
        rewrite <- app_assoc. repeat split. exact Hr.
  - (* backup *)
    unfold backup_create. destruct (has_permission cfg user); simpl negb; cbv iota;
      [| left; reflexivity].
    owned_cases vm; [left; reflexivity |].
    now apply write_after_call.
  - (* backup cleanup *)
    left. apply cleanup_keeps_registry.
Qed.

(** ** Commands that only read *)

Lemma only_reads_refl (w : World) : only_reads w w.
Proof. split; [reflexivity |]. exists []. now rewrite app_nil_r. Qed.

Lemma only_reads_trans (w1 w2 w3 : World) :
  only_reads w1 w2 -> only_reads w2 w3 -> only_reads w1 w3.
Proof.
  intros [Hd1 [n1 [Hl1 Hg1]]] [Hd2 [n2 [Hl2 Hg2]]]. split; [congruence |].
  exists (n1 ++ n2). split.
  - now rewrite Hl2, Hl1, app_assoc.
  - unfold all_get in *. now rewrite forallb_app, Hg1, Hg2.
Qed.

Lemma get_request_reads (e : fstring) (dflt : json) (w : World) :
  only_reads w (snd (run (request_data "GET" e None dflt) w)).
Proof.
  destruct (request_data_world "GET" e None dflt w) as [-> | ->].
  - apply only_reads_refl.
  - split; [reflexivity |]. exists [api_request (proxmox w) "GET" e None].
    split; reflexivity.
Qed.

(** X12.  [vm_create] reads the template file under the key
    [template_file]: for a catalog entry without that key, as every entry of
    [config.py] is, no creation succeeds.  Whatever the request and the
    world, no VM is created on the hypervisor (only [GET]s are sent), no row
    is written, and the answer is never a created VM. *)
Theorem create_needs_template_file (cfg : Settings) (user : Member) (name template : string)
  (memory cores disk : Z) (node : option string) (w : World) (fields : list (string * json)) :
  dict_lookup (available_templates cfg) template = Some fields ->
  dict_lookup fields "template_file" = None ->
  only_reads w (snd (run (vm_create cfg user name template memory cores disk node) w)) /\
  not_created (fst (run (vm_create cfg user name template memory cores disk node) w)) = true.
Proof.
  intros Ht Hf.
  remember (run (vm_create cfg user name template memory cores disk node) w) as res eqn:E.
  assert (Hleaf : forall r w1, res = (r, w1) -> only_reads w w1 -> not_created r = true ->
            only_reads w (snd res) /\ not_created (fst res) = true).
  { intros r w1 -> H1 H2. split; assumption. }
  assert (Hcreate : forall (nd : json) (w1 : World) k h,
            only_reads w w1 ->
            res = (let (r, w') :=
                     run (vmid <- get_next_vmid ;;
                          template_file <- lift (py_getitem (JObj fields) "template_file") ;;
                          k vmid template_file) w1 in
                   match r with
                   | Ok a => (Ok a, w')
                   | Raise e => run (ret (Failed h e)) w'
                   end) ->
            only_reads w (snd res) /\ not_created (fst res) = true).
  { intros nd w1 k h Hw Eres. rewrite run_bind in Eres.
    pose proof (get_request_reads [Lit "cluster/nextid"] (JNum 100) w1) as Hid.
    unfold get_next_vmid in Eres.
    destruct (run (request_data "GET" [Lit "cluster/nextid"] None (JNum 100)) w1)
      as [[vmid | e] w2]; simpl snd in Hid.
    - rewrite run_bind, run_lift in Eres. unfold py_getitem in Eres. rewrite Hf in Eres.
      eapply Hleaf; [exact Eres | eapply only_reads_trans; eassumption | reflexivity].
    - eapply Hleaf; [exact Eres | eapply only_reads_trans; eassumption | reflexivity]. }
  unfold vm_create, command in E. rewrite run_try_except in E.
  destruct (has_permission cfg user); simpl negb in E; cbv iota in E;
    [| eapply Hleaf; [exact E | apply only_reads_refl | reflexivity]].
  rewrite Ht in E. cbv zeta in E.
  rewrite run_bind, run_lift in E.
  destruct (py_getitem (JObj fields) "min_memory") as [min_memory | e];
    [| eapply Hleaf; [exact E | apply only_reads_refl | reflexivity]].
  rewrite run_bind, run_lift in E.
  destruct (py_lt_int memory min_memory) as [[|] | e];
    try (eapply Hleaf; [exact E | apply only_reads_refl | reflexivity]).
  rewrite run_bind, run_lift in E.
  destruct (py_getitem (JObj fields) "min_cores") as [min_cores | e];
    [| eapply Hleaf; [exact E | apply only_reads_refl | reflexivity]].
  rewrite run_bind, run_lift in E.
  destruct (py_lt_int cores min_cores) as [[|] | e];
    try (eapply Hleaf; [exact E | apply only_reads_refl | reflexivity]).
  rewrite run_bind, run_lift in E.
  destruct (py_getitem (JObj fields) "min_disk") as [min_disk | e];
    [| eapply Hleaf; [exact E | apply only_reads_refl | reflexivity]].
  rewrite run_bind, run_lift in E.
  destruct (py_lt_int disk min_disk) as [[|] | e];
    try (eapply Hleaf; [exact E | apply only_reads_refl | reflexivity]).
  assert (Hnodes : forall k h,
            res = (let (r, w') :=
                     run (nodes <- get_nodes ;;
                          if negb (truthy nodes) then ret NoNodes
                          else first <- lift (py_first nodes) ;;
                               node0 <- lift (py_getitem first "node") ;;
                               (vmid <- get_next_vmid ;;
                                template_file <- lift (py_getitem (JObj fields)
                                                         "template_file") ;;
                                k node0 vmid template_file)) w in
                   match r with
                   | Ok a => (Ok a, w')
                   | Raise e => run (ret (Failed h e)) w'
                   end) ->
            only_reads w (snd res) /\ not_created (fst res) = true).
  { intros k h Eres. rewrite run_bind in Eres.
    pose proof (get_request_reads [Lit "nodes"] (JArr []) w) as Hn.
    unfold get_nodes in Eres.
    destruct (run (request_data "GET" [Lit "nodes"] None (JArr [])) w) as [[nodes | e] w1];
      simpl snd in Hn; [| eapply Hleaf; [exact Eres | exact Hn | reflexivity]].
    destruct (negb (truthy nodes)); [eapply Hleaf; [exact Eres | exact Hn | reflexivity] |].
    rewrite run_bind, run_lift in Eres.
    destruct (py_first nodes) as [first | e];
      [| eapply Hleaf; [exact Eres | exact Hn | reflexivity]].
    rewrite run_bind, run_lift in Eres.
    destruct (py_getitem first "node") as [node0 | e];
      [| eapply Hleaf; [exact Eres | exact Hn | reflexivity]].
    eapply (Hcreate node0 w1 (k node0) h Hn). exact Eres. }
  destruct node as [[| c s] |].
  - eapply Hnodes. exact E.
  - eapply (Hcreate (JStr (String c s)) w _ _ (only_reads_refl w)). exact E.
  - eapply Hnodes. exact E.
Qed.

Lemma create_needs_template_file_witness :
  only_reads (world_of connected_client five_vms creation_answers)
    (snd (run (vm_create settings alice "web" "debian-12" 2048 2 32 None)
              (world_of connected_client five_vms creation_answers))) /\
  not_created (fst (run (vm_create settings alice "web" "debian-12" 2048 2 32 None)
                        (world_of connected_client five_vms creation_answers))) = true.
Proof.
  exact (create_needs_template_file settings alice "web" "debian-12" 2048 2 32 None
           (world_of connected_client five_vms creation_answers)
           (os_template "Debian 12 (Bookworm)" "debian-12-standard_12.0-1_amd64.tar.zst"
              1024 20 "debian")
           eq_refl eq_refl).
Defined.

(** ** Restoring and deleting a backup *)

Lemma owned_cases_answer (what : string) (user : Member) (vmid : Z)
  (k : VM.row -> Task Answer) (w : World) :
  run (guarded what (owned user vmid k)) w = (Ok NotYours, w) \/
  exists vm, db_get_vm_by_id (database w) vmid = Some vm /\
             VM.owner_id vm = user_id user /\
             run (guarded what (owned user vmid k)) w = run (guarded what (k vm)) w.
Proof.
  destruct (db_get_vm_by_id (database w) vmid) as [vm |] eqn:Hvm.
  - destruct (VM.owner_id vm =? user_id user) eqn:Ho.
    + right. exists vm. split; [reflexivity |]. split; [now apply Z.eqb_eq |].
      unfold guarded, owned. rewrite !run_try_except, run_bind. simpl.
      rewrite Hvm, Ho. reflexivity.
    + left. unfold guarded, owned. rewrite run_try_except, run_bind. simpl.
      rewrite Hvm, Ho. reflexivity.
  - left. unfold guarded, owned. rewrite run_try_except, run_bind. simpl.
    rewrite Hvm. reflexivity.
Qed.

(** The backup is looked up in the hypervisor's listing; when it is there
    the command goes on to [next]. *)
Lemma backup_lookup_reads (what : string) (vm : VM.row) (vmid : Z) (backup_name : string)
  (next : Task Answer) (w : World) (P : Res Answer * World -> Prop) :
  (forall r w1, only_reads w w1 -> restored_or_deleted r = false -> P (r, w1)) ->
  (forall w1, only_reads w w1 -> P (run (guarded what next) w1)) ->
  P (run (guarded what (
      backups <- get_backups (VM.node vm) vmid ;;
      items <- lift (py_iter backups) ;;
      backup_exists <- lift (any_volid items backup_name) ;;
      if negb backup_exists then ret (BackupMissing backup_name) else next)) w).
Proof.
  intros Hleaf Hnext. unfold guarded. rewrite run_try_except, run_bind.
  pose proof (get_request_reads (vm_path (VM.node vm) vmid "/vzdump") (JArr []) w) as Hr.
  unfold get_backups.
  destruct (run (request_data _ _ _ _) w) as [[backups | e] w1]; simpl snd in Hr.
  - rewrite run_bind, run_lift. destruct (py_iter backups) as [items | e].
    + rewrite run_bind, run_lift. destruct (any_volid items backup_name) as [[|] | e].
      * simpl negb. cbv iota. specialize (Hnext w1 Hr). unfold guarded in Hnext.
        rewrite run_try_except in Hnext. exact Hnext.
      * simpl. apply Hleaf; [exact Hr | reflexivity].
      * simpl. apply Hleaf; [exact Hr | reflexivity].
    + simpl. apply Hleaf; [exact Hr | reflexivity].
  - simpl. apply Hleaf; [exact Hr | reflexivity].
Qed.

(** X13.  [backup_restore] never starts a restore: the client has no
    [restore_backup] method, so once the backup is found in the listing the
    command fails.  In every world it writes nothing (the only request it
    can send is the listing of the backups) and it never answers that a
    restore was started. *)
Theorem restore_never_starts (cfg : Settings) (user : Member) (vmid : Z)
  (backup_name : string) (w : World) :
  only_reads w (snd (run (backup_restore cfg user vmid backup_name) w)) /\
  restored_or_deleted (fst (run (backup_restore cfg user vmid backup_name) w)) = false.
Proof.
  unfold backup_restore.
  destruct (has_permission cfg user); simpl negb; cbv iota;
    [| split; [apply only_reads_refl | reflexivity]].
  destruct (owned_cases_answer "restore backup" user vmid
    (fun vm =>
       backups <- get_backups (VM.node vm) vmid ;;
       items <- lift (py_iter backups) ;;
       backup_exists <- lift (any_volid items backup_name) ;;
       if negb backup_exists then ret (BackupMissing backup_name)
       else do proxmox_getattr "restore_backup" ;; ret (RestoreStarted vmid backup_name)) w)
    as [-> | [vm [_ [_ ->]]]]; [split; [apply only_reads_refl | reflexivity] |].
  apply (backup_lookup_reads "restore backup" vm vmid backup_name
           (do proxmox_getattr "restore_backup" ;; ret (RestoreStarted vmid backup_name)) w
           (fun res => only_reads w (snd res) /\ restored_or_deleted (fst res) = false)).
  - intros r w1 H1 H2. split; assumption.
  - intros w1 H1. split; [exact H1 | reflexivity].
Qed.

(** X14.  [backup_delete] never deletes: the client has no [delete_backup]
    method, so once the backup is found in the listing the command fails
    before it reaches the registry.  In every world it writes nothing and
    never answers that the backup was deleted. *)
Theorem delete_never_deletes (cfg : Settings) (user : Member) (vmid : Z)
  (backup_name : string) (w : World) :
  only_reads w (snd (run (backup_delete cfg user vmid backup_name) w)) /\
  restored_or_deleted (fst (run (backup_delete cfg user vmid backup_name) w)) = false.
Proof.
  unfold backup_delete.
  destruct (has_permission cfg user); simpl negb; cbv iota;
    [| split; [apply only_reads_refl | reflexivity]].
  destruct (owned_cases_answer "delete backup" user vmid
    (fun vm =>
       backups <- get_backups (VM.node vm) vmid ;;
       items <- lift (py_iter backups) ;;
       backup_exists <- lift (any_volid items backup_name) ;;
       if negb backup_exists then ret (BackupMissing backup_name)
       else do proxmox_getattr "delete_backup" ;;
            do db_write (db_delete_backup (JStr backup_name)) ;;
            ret (BackupDeleted vmid backup_name)) w)
    as [-> | [vm [_ [_ ->]]]]; [split; [apply only_reads_refl | reflexivity] |].
  apply (backup_lookup_reads "delete backup" vm vmid backup_name
           (do proxmox_getattr "delete_backup" ;;
            do db_write (db_delete_backup (JStr backup_name)) ;;
            ret (BackupDeleted vmid backup_name)) w
           (fun res => only_reads w (snd res) /\ restored_or_deleted (fst res) = false)).
  - intros r w1 H1 H2. split; assumption.
  - intros w1 H1. split; [exact H1 | reflexivity].
Qed.

(** ** The cleanup, in every world *)

Lemma cleanup_reports_none (cfg : Settings) (user : Member) (vmid : Z) (w : World) :
  none_deleted (fst (run (backup_cleanup cfg user vmid) w)) = true.
Proof.
  remember (run (backup_cleanup cfg user vmid) w) as res eqn:E.
  assert (Hleaf : forall r w1, res = (r, w1) -> none_deleted r = true ->
            none_deleted (fst res) = true).
  { intros r w1 -> H. exact H. }
  unfold backup_cleanup in E.
  destruct (has_permission cfg user); simpl negb in E; cbv iota in E;
    [| eapply Hleaf; [exact E | reflexivity]].
  destruct (owned_vm_cases "clean up backups" user vmid
    (fun vm =>
       schedule <- db_read (fun db => db_get_backup_schedule db vmid) ;;
       if negb (truthy schedule) then ret NoSchedule
       else
         retention <- lift (py_get schedule "retention" (JNum 7)) ;;
         backups <- get_backups (VM.node vm) vmid ;;
         total <- lift (py_len backups) ;;
         retention <- lift (as_int retention) ;;
         if total <=? retention then ret NothingToCleanUp
         else
           sorted <- lift (sort_newest_first backups) ;;
           deleted_count <- delete_old_backups vm (slice_from sorted retention) 0 ;;
           ret (CleanupCompleted vmid retention deleted_count)) w)
    as [Hc | [vm [_ [_ Hc]]]]; rewrite Hc in E; clear Hc;
    [eapply Hleaf; [exact E | reflexivity] |].
  unfold command in E. rewrite run_try_except, run_bind in E.
  change (run (db_read (fun db => db_get_backup_schedule db vmid)) w)
    with (Ok (db_get_backup_schedule (database w) vmid), w) in E.
  cbv iota beta in E.
  destruct (negb (truthy (db_get_backup_schedule (database w) vmid)));
    [eapply Hleaf; [exact E | reflexivity] |].
  rewrite run_bind, run_lift in E.
  destruct (py_get _ "retention" _) as [retention | e];
    [| eapply Hleaf; [exact E | reflexivity]].
  rewrite run_bind in E.
  destruct (run (get_backups (VM.node vm) vmid) w) as [[bs | e] w1];
    [| eapply Hleaf; [exact E | reflexivity]].
  rewrite run_bind, run_lift in E.
  destruct (py_len bs) as [total | e]; [| eapply Hleaf; [exact E | reflexivity]].
  rewrite run_bind, run_lift in E.
  destruct (as_int retention) as [keep | e]; [| eapply Hleaf; [exact E | reflexivity]].
  destruct (total <=? keep); [eapply Hleaf; [exact E | reflexivity] |].
  rewrite run_bind, run_lift in E.
  destruct (sort_newest_first bs) as [sorted | e]; [| eapply Hleaf; [exact E | reflexivity]].
  rewrite run_bind in E.
  pose proof (delete_old_backups_inert vm (slice_from sorted keep) 0 w1) as [_ Hn].
  destruct (run (delete_old_backups _ _ _) w1) as [[n | e] w2]; simpl fst in Hn.
  - destruct Hn as [Hn | [e Hn]]; [| discriminate]. injection Hn as ->.
    eapply Hleaf; [exact E | reflexivity].
  - eapply Hleaf; [exact E | reflexivity].
Qed.

(** X15.  [backup_cleanup] removes nothing, in any world and for any
    caller, VM, schedule and listing: the registry is left as it was, the
    only request it can send is the listing of the backups, and when it
    reports a completed cleanup the number of deleted backups it reports
    is 0. *)
Theorem cleanup_is_inert (cfg : Settings) (user : Member) (vmid : Z) (w : World) :
  only_reads w (snd (run (backup_cleanup cfg user vmid) w)) /\
  none_deleted (fst (run (backup_cleanup cfg user vmid) w)) = true.
Proof.
  split; [| apply cleanup_reports_none].
  destruct (cleanup_never_removes cfg user vmid w) as [Hdb [Hlog | [node Hlog]]].
  - split; [exact Hdb |]. exists []. rewrite app_nil_r. split; [exact Hlog | reflexivity].
  - split; [exact Hdb |]. eexists. split; [exact Hlog | reflexivity].
Qed.

(** ** The retention policy of the cleanup *)

Lemma ctime_keys_spec (items : list json) (keyed : list (Z * json)) :
  ctime_keys items = Ok keyed -> keyed = map (fun x => (ctime_of x, x)) items.
Proof.
  revert keyed. induction items as [| x rest IH]; intros keyed H; simpl in H.
  - now injection H as <-.
  - unfold ctime_of at 1. simpl.
    destruct (py_get x "ctime" (JNum 0)) as [c | e]; [| discriminate]. simpl in *.
    destruct (as_int c) as [key | e]; [| discriminate]. simpl in *.
    destruct (ctime_keys rest) as [keyed' | e]; [| discriminate]. simpl in H.
    injection H as <-. now rewrite (IH keyed' eq_refl).
Qed.

Lemma sort_desc_in (p : Z * json) (l : list (Z * json)) : In p (sort_desc l) <-> In p l.
Proof.
  induction l as [| x l IH]; simpl; [tauto |].
  rewrite insert_desc_in, IH. intuition.
Qed.

Lemma slice_split {A} (l : list A) (n : Z) : slice_to l n ++ slice_from l n = l.
Proof. unfold slice_to, slice_from. destruct (0 <=? n); apply firstn_skipn. Qed.

Lemma slice_map {A B} (f : A -> B) (l : list A) (n : Z) :
  slice_to (map f l) n = map f (slice_to l n) /\
  slice_from (map f l) n = map f (slice_from l n).
Proof.
  unfold slice_to, slice_from. rewrite length_map.
  destruct (0 <=? n); split; auto using firstn_map, skipn_map.
Qed.

Lemma slice_order (l : list (Z * json)) (n : Z) (x y : Z * json) :
  newest_first l -> In x (slice_from l n) -> In y (slice_to l n) -> fst x <= fst y.
Proof.
  unfold slice_to, slice_from. destruct (0 <=? n); apply newest_first_split.
Qed.

(** X16.  The cleanup's selection is a retention policy.  When the listing
    sorts (every backup is a dict whose [ctime] is a number), the sorted
    list holds the same backups, it splits into those kept and those
    selected for removal, and no selected backup is newer than a kept one.
    For a retention [N >= 0] the [min N total] newest are kept; a negative
    retention [-k], which [backup_schedule] accepts, selects the [min k total]
    oldest. *)
Theorem retention_selection (items sorted : list json) (retention : Z) :
  sort_newest_first (JArr items) = Ok sorted ->
  cleanup_kept sorted retention ++ cleanup_selected sorted retention = sorted /\
  (forall x, In x sorted <-> In x items) /\
  (forall x y, In x (cleanup_selected sorted retention) ->
               In y (cleanup_kept sorted retention) -> ctime_of x <= ctime_of y) /\
  (0 <= retention ->
   List.length (cleanup_kept sorted retention)
     = Nat.min (Z.to_nat retention) (List.length items)) /\
  (retention < 0 ->
   List.length (cleanup_selected sorted retention)
     = Nat.min (Z.to_nat (- retention)) (List.length items)).
Proof.
  unfold sort_newest_first, cleanup_kept, cleanup_selected. intros H.
  destruct (ctime_keys items) as [keyed |] eqn:Ek; [| discriminate].
  simpl in H. injection H as <-. apply ctime_keys_spec in Ek.
  assert (Hkey : forall p, In p (sort_desc keyed) -> fst p = ctime_of (snd p)).
  { intros p Hp. rewrite sort_desc_in in Hp. rewrite Ek in Hp.
    apply in_map_iff in Hp as [x [<- _]]. reflexivity. }
  assert (Hlen : List.length (sort_desc keyed) = List.length items).
  { now rewrite sort_desc_length, Ek, length_map. }
  split; [apply slice_split |]. split.
  - intros x. rewrite in_map_iff. split.
    + intros [p [<- Hp]]. rewrite sort_desc_in in Hp. rewrite Ek in Hp.
      apply in_map_iff in Hp as [x [<- Hx]]. exact Hx.
    + intros Hx. exists (ctime_of x, x). split; [reflexivity |].
      rewrite sort_desc_in, Ek. now apply (in_map (fun x => (ctime_of x, x))).
  - split; [| split].
    + intros x y Hx Hy.
      destruct (slice_map snd (sort_desc keyed) retention) as [Hto Hfrom].
      rewrite Hfrom in Hx. rewrite Hto in Hy.
      apply in_map_iff in Hx as [px [<- Hpx]]. apply in_map_iff in Hy as [py [<- Hpy]].
      assert (Hpx' : In px (sort_desc keyed)).
      { rewrite <- (slice_split (sort_desc keyed) retention). apply in_or_app. now right. }
      assert (Hpy' : In py (sort_desc keyed)).
      { rewrite <- (slice_split (sort_desc keyed) retention). apply in_or_app. now left. }
      rewrite <- (Hkey px Hpx'), <- (Hkey py Hpy').
      exact (slice_order _ _ _ _ (sort_desc_newest_first keyed) Hpx Hpy).
    + intros Hn. unfold slice_to. apply Z.leb_le in Hn. rewrite Hn.
      now rewrite length_firstn, length_map, Hlen.
    + intros Hn. unfold slice_from. apply Z.leb_gt in Hn. rewrite Hn.
      rewrite length_skipn, length_map, Hlen. lia.
Qed.

Lemma retention_selection_witness :
  List.length (cleanup_kept
    [JObj [("volid", JStr "c"); ("ctime", JNum 30)];
     JObj [("volid", JStr "b"); ("ctime", JNum 20)];
     JObj [("volid", JStr "a"); ("ctime", JNum 10)]] 2) = 2%nat /\
  List.length (cleanup_selected
    [JObj [("volid", JStr "c"); ("ctime", JNum 30)];
     JObj [("volid", JStr "b"); ("ctime", JNum 20)];
     JObj [("volid", JStr "a"); ("ctime", JNum 10)]] (-1)) = 1%nat.
Proof.
  pose proof (retention_selection
    [JObj [("volid", JStr "b"); ("ctime", JNum 20)];
     JObj [("volid", JStr "c"); ("ctime", JNum 30)];
     JObj [("volid", JStr "a"); ("ctime", JNum 10)]]
    [JObj [("volid", JStr "c"); ("ctime", JNum 30)];
     JObj [("volid", JStr "b"); ("ctime", JNum 20)];
     JObj [("volid", JStr "a"); ("ctime", JNum 10)]] 2 eq_refl) as [_ [_ [_ [H2 _]]]].
  pose proof (retention_selection
    [JObj [("volid", JStr "b"); ("ctime", JNum 20)];
     JObj [("volid", JStr "c"); ("ctime", JNum 30)];
     JObj [("volid", JStr "a"); ("ctime", JNum 10)]]
    [JObj [("volid", JStr "c"); ("ctime", JNum 30)];
     JObj [("volid", JStr "b"); ("ctime", JNum 20)];
     JObj [("volid", JStr "a"); ("ctime", JNum 10)]] (-1) eq_refl) as [_ [_ [_ [_ H1]]]].
  split; [rewrite H2 by lia | rewrite H1 by lia]; reflexivity.
Defined.

(** ** Scheduling backups *)



(** ** Migrating to a node that is not there *)

Lemma any_node_other (nodes : list json) (target_node : string) :
  forallb (other_node target_node) nodes = true ->
  any_node nodes target_node = Ok false.
Proof.
  induction nodes as [| node rest IH]; intros H; simpl; [reflexivity |].
  simpl in H. apply andb_true_iff in H as [Hn Hrest]. unfold other_node in Hn.
  destruct (py_getitem node "node") as [n | e]; [| discriminate]. simpl.
  apply negb_true_iff in Hn. rewrite Hn. now apply IH.
Qed.

(** X18.  [node_migrate] asks the hypervisor for its nodes before it
    migrates: when every node listed names a node other than the target, the
    owner's request is turned down, the listing is the only request sent, and
    the registry keeps the VM's node. *)
Theorem migrate_needs_listed_target (cfg : Settings) (user : Member) (vmid : Z)
  (target_node : string) (w : World) (vm : VM.row) (fields : list (string * json))
  (nodes : list json) :
  has_permission cfg user = true ->
  db_get_vm_by_id (database w) vmid = Some vm ->
  VM.owner_id vm = user_id user ->
  session (proxmox w) = SessionOpen ->
  remote w (List.length (http_log w)) (api_request (proxmox w) "GET" [Lit "nodes"] None)
    = HttpResponse 200 (Some (JObj fields)) ->
  dict_lookup fields "data" = Some (JArr nodes) ->
  forallb (other_node target_node) nodes = true ->
  run (node_migrate cfg user vmid target_node) w =
  (Ok (TargetNodeMissing target_node),
   snd (send (api_request (proxmox w) "GET" [Lit "nodes"] None) w)).
Proof.
  intros Hp Hvm Ho Hs Hr Hd Hn. apply Z.eqb_eq in Ho.
  unfold node_migrate, guarded, owned. rewrite Hp. simpl negb. cbv iota.
  rewrite run_try_except, run_bind. simpl run at 1. rewrite Hvm, Ho. simpl negb. cbv iota.
  rewrite run_bind. unfold get_nodes, request_data.
  rewrite run_bind, make_request_open, Hr by assumption.
  simpl read_response. cbv iota. rewrite run_lift. unfold py_get. rewrite Hd.
  rewrite run_bind, run_lift. cbn [py_iter]. rewrite run_bind, run_lift.
  rewrite any_node_other by assumption. reflexivity.
Qed.

Lemma migrate_needs_listed_target_witness :
  run (node_migrate settings alice 100 "pve9")
      (world_of connected_client one_vm
         (answers [HttpResponse 200
            (Some (JObj [("data", JArr [JObj [("node", JStr "pve")];
                                        JObj [("node", JStr "pve2")]])]))]))
  = (Ok (TargetNodeMissing "pve9"),
     snd (send (api_request connected_client "GET" [Lit "nodes"] None)
               (world_of connected_client one_vm
                  (answers [HttpResponse 200
                     (Some (JObj [("data", JArr [JObj [("node", JStr "pve")];
                                                 JObj [("node", JStr "pve2")]])]))])))).
Proof.
  exact (migrate_needs_listed_target settings alice 100 "pve9"
    (world_of connected_client one_vm
       (answers [HttpResponse 200
          (Some (JObj [("data", JArr [JObj [("node", JStr "pve")];
                                      JObj [("node", JStr "pve2")]])]))]))
    (vm_of_alice 100)
    [("data", JArr [JObj [("node", JStr "pve")]; JObj [("node", JStr "pve2")]])]
    [JObj [("node", JStr "pve")]; JObj [("node", JStr "pve2")]]
    eq_refl eq_refl eq_refl eq_refl eq_refl eq_refl eq_refl).
Defined.

(** ** The information on a VM *)

(** X19.  The uptime shown splits the seconds into days, hours and
    minutes without losing more than the seconds of the last minute: the
    hours are below 24, the minutes below 60, and the three add up to the
    uptime rounded down to the minute (for every integer, by Python's floor
    division). *)
Theorem uptime_parts_bounds (uptime_seconds : Z) :
  let '(days, hours, minutes) := uptime_parts uptime_seconds in
  0 <= hours < 24 /\ 0 <= minutes < 60 /\
  days * 86400 + hours * 3600 + minutes * 60 <= uptime_seconds
    < days * 86400 + hours * 3600 + minutes * 60 + 60.
Proof.
  unfold uptime_parts. Z.div_mod_to_equations. lia.
Qed.

(** X20.  [vm_info] only reads: in every world, for every caller and VM,
    the registry is left as it was and every request sent is a [GET]. *)
Theorem vm_info_only_reads (user : Member) (vmid : Z) (w : World) :
  only_reads w (snd (run (vm_info user vmid) w)).
Proof.
  unfold vm_info.
  destruct (owned_cases_answer "get VM info" user vmid
    (fun vm =>
       status <- get_vm_status (VM.node vm) vmid ;;
       config <- get_vm_config (VM.node vm) vmid ;;
       shown <- lift (py_get status "status" (JStr "Unknown")) ;;
       uptime <- lift (py_get status "uptime" JNull) ;;
       if truthy uptime then
         uptime_seconds <- lift (as_int uptime) ;;
         ret (VMInfo vmid shown (Some (uptime_parts uptime_seconds)))
       else ret (VMInfo vmid shown None)) w)
    as [Hc | [vm [_ [_ Hc]]]]; rewrite Hc; clear Hc; [apply only_reads_refl |].
  unfold guarded. rewrite run_try_except, run_bind.
  pose proof (get_request_reads (vm_path (VM.node vm) vmid "/status/current") (JObj []) w)
    as H1.
  unfold get_vm_status.
  destruct (run (request_data _ _ _ _) w) as [[status | e] w1]; simpl snd in H1;
    [| exact H1].
  rewrite run_bind.
  pose proof (get_request_reads (vm_path (VM.node vm) vmid "/config") (JObj []) w1) as H2.
  unfold get_vm_config.
  destruct (run (request_data _ _ _ _) w1) as [[config | e] w2]; simpl snd in H2;
    [| exact (only_reads_trans _ _ _ H1 H2)].
  assert (H : only_reads w w2) by exact (only_reads_trans _ _ _ H1 H2).
  rewrite run_bind, run_lift.
  destruct (py_get status "status" (JStr "Unknown")) as [shown | e]; [| exact H].
  rewrite run_bind, run_lift.
  destruct (py_get status "uptime" JNull) as [uptime | e]; [| exact H].
  destruct (truthy uptime); [| exact H].
  rewrite run_bind, run_lift. destruct (as_int uptime); exact H.
Qed.

(** ** The usage statistics *)

Lemma dict_lookup_set_other {V} (d : list (string * V)) (k t : string) (v : V) :
  String.eqb k t = false ->
  dict_lookup (dict_set d k v) t = dict_lookup d t.
Proof.
  intros Hkt. induction d as [| [k' v'] d IH]; simpl.
  - now rewrite Hkt.
  - destruct (String.eqb k' k) eqn:E; simpl.
    + apply String.eqb_eq in E. subst k'. now rewrite Hkt.
    + destruct (String.eqb k' t); [reflexivity | exact IH].
Qed.

Lemma usage_of_add (usage : list (string * Z)) (k t : string) :
  usage_of (usage_add usage k) t = usage_of usage t + (if String.eqb k t then 1 else 0).
Proof.
  unfold usage_of, usage_add. destruct (String.eqb k t) eqn:E.
  - apply String.eqb_eq in E. subst t. now rewrite dict_lookup_set_same.
  - rewrite dict_lookup_set_other by assumption. lia.
Qed.

Lemma usage_total_set (usage : list (string * Z)) (k : string) (v : Z) :
  usage_total (dict_set usage k v) = usage_total usage - usage_of usage k + v.
Proof.
  unfold usage_of. induction usage as [| [k' v'] usage IH]; simpl.
  - lia.
  - destruct (String.eqb k' k); simpl; [lia |]. rewrite IH. lia.
Qed.

Lemma template_usage_from (vms : list VM.row) (usage : list (string * Z)) (t : string) :
  usage_of (fold_left (fun u vm => usage_add u (VM.template vm)) vms usage) t
    = usage_of usage t + Z.of_nat (List.length (made_from t vms)) /\
  usage_total (fold_left (fun u vm => usage_add u (VM.template vm)) vms usage)
    = usage_total usage + Z.of_nat (List.length vms).
Proof.
  revert usage. induction vms as [| vm rest IH]; intros usage.
  - simpl. lia.
  - cbn [fold_left made_from filter]. destruct (IH (usage_add usage (VM.template vm)))
      as [Hof Htotal]. rewrite Hof, Htotal, usage_of_add.
    unfold usage_add. rewrite usage_total_set. fold (usage_of usage (VM.template vm)).
    fold (made_from t rest). destruct (String.eqb (VM.template vm) t); simpl List.length; lia.
Qed.

(** X21.  The template usage that [user_stats] shows counts every VM
    once: the number shown for a template is the number of the user's VMs
    made from it (a template without an entry has none), and the numbers
    shown add up to the number of VMs. *)
Theorem template_usage_counts (vms : list VM.row) (template : string) :
  usage_of (template_usage vms) template = Z.of_nat (List.length (made_from template vms)) /\
  usage_total (template_usage vms) = Z.of_nat (List.length vms).
Proof.
  unfold template_usage. destruct (template_usage_from vms [] template) as [H1 H2].
  rewrite H1, H2. split; reflexivity.
Qed.

(** ** A creation that goes through *)

(** X22.  What [vm_create] records is what it sent.  For a permitted user,
    a catalog entry with its minimums met, a node given, an open session and
    a hypervisor that answers the id request with [vmid] and accepts the
    creation, exactly two requests are sent, the id request and the creation
    posted to the node, and the row written carries the hypervisor's id, the
    caller as owner, the status [stopped] and, as its configuration, the very
    payload that was posted. *)
Theorem create_records_payload (cfg : Settings) (user : Member) (name template : string)
  (memory cores disk : Z) (c : Ascii.ascii) (node : string) (w : World)
  (fields ids created : list (string * json))
  (min_memory min_cores min_disk : Z) (template_file template_name vmid : json) :
  has_permission cfg user = true ->
  dict_lookup (available_templates cfg) template = Some fields ->
  dict_lookup fields "min_memory" = Some (JNum min_memory) ->
  dict_lookup fields "min_cores" = Some (JNum min_cores) ->
  dict_lookup fields "min_disk" = Some (JNum min_disk) ->
  dict_lookup fields "template_file" = Some template_file ->
  dict_lookup fields "name" = Some template_name ->
  min_memory <= memory -> min_cores <= cores -> min_disk <= disk ->
  session (proxmox w) = SessionOpen ->
  remote w (List.length (http_log w))
         (api_request (proxmox w) "GET" [Lit "cluster/nextid"] None)
    = HttpResponse 200 (Some (JObj ids)) ->
  dict_lookup ids "data" = Some vmid ->
  (forall rq, remote w (S (List.length (http_log w))) rq
              = HttpResponse 200 (Some (JObj created))) ->
  let payload := vm_config_of cfg vmid name memory cores disk template_file in
  let w' := snd (run (vm_create cfg user name template memory cores disk
                        (Some (String c node))) w) in
  fst (run (vm_create cfg user name template memory cores disk (Some (String c node))) w)
    = Ok (VMCreated name vmid template_name (JStr (String c node))) /\
  http_log w' =
    http_log w ++
    [api_request (proxmox w) "GET" [Lit "cluster/nextid"] None;
     api_request (proxmox w) "POST" [Lit "nodes/"; Fmt (JStr (String c node)); Lit "/qemu"]
       (Some payload)] /\
  List.length (vms (database w')) = S (List.length (vms (database w))) /\
  exists row, newest_row (database w') = Some row /\
    VM.vm_id row = vmid /\ VM.owner_id row = user_id user /\ VM.status row = "stopped" /\
    VM.node row = JStr (String c node) /\ VM.memory row = memory /\ VM.cores row = cores /\
    VM.disk_size row = disk /\ VM.template row = template /\
    VM.proxmox_config row = payload.
Proof.
  intros Hp Ht Hmm Hmc Hmd Hf Hn Hm Hc Hd Hs Hr1 Hid Hr2 payload w'.
  apply Z.ltb_ge in Hm, Hc, Hd.
  assert (Hrun : run (vm_create cfg user name template memory cores disk
                        (Some (String c node))) w =
    (Ok (VMCreated name vmid template_name (JStr (String c node))),
     with_database
       (db_create_vm (user_id user)
          {| d_vm_id := vmid; d_name := name; d_template := template; d_memory := memory;
             d_cores := cores; d_disk_size := disk; d_node := JStr (String c node);
             d_storage := default_storage cfg;
             d_network_bridge := default_network_bridge cfg;
             d_proxmox_config := payload |})
       (snd (send (api_request (proxmox w) "POST"
                     [Lit "nodes/"; Fmt (JStr (String c node)); Lit "/qemu"] (Some payload))
                  (snd (send (api_request (proxmox w) "GET" [Lit "cluster/nextid"] None)
                             w)))))).
  { unfold vm_create, command. rewrite Hp, Ht. simpl negb. cbv iota zeta.
    rewrite run_try_except.
    unfold py_getitem at 1. rewrite Hmm. rewrite run_bind, run_lift.
    unfold py_lt_int at 1. simpl res_bind. rewrite Hm. rewrite run_bind, run_lift.
    unfold py_getitem at 1. rewrite Hmc. rewrite run_bind, run_lift.
    unfold py_lt_int at 1. simpl res_bind. rewrite Hc. rewrite run_bind, run_lift.
    unfold py_getitem at 1. rewrite Hmd. rewrite run_bind, run_lift.
    unfold py_lt_int at 1. simpl res_bind. rewrite Hd. rewrite run_bind, run_lift.
    rewrite run_bind. unfold get_next_vmid, request_data at 1.
    rewrite run_bind, make_request_open, Hr1 by assumption.
    simpl read_response. cbv iota. rewrite run_lift. unfold py_get at 1. rewrite Hid.
    rewrite run_bind, run_lift. unfold py_getitem at 1. rewrite Hf.
    rewrite run_bind. unfold create_vm, request_data.
    rewrite run_bind, make_request_open by exact Hs.
    cbn [send snd http_log remote proxmox]. rewrite length_app, Nat.add_comm. simpl List.length.
    rewrite Hr2. simpl read_response. cbv iota. rewrite run_lift.
    unfold py_get. destruct (dict_lookup created "data");
      (rewrite run_bind; simpl run at 1; cbv iota; rewrite run_bind, run_lift;
       unfold py_getitem; rewrite Hn; reflexivity). }
  subst w'. rewrite Hrun. split; [reflexivity |]. split.
  - simpl. now rewrite <- app_assoc.
  - split.
    + simpl. rewrite length_app. simpl. lia.
    + eexists. split.
      * unfold newest_row. simpl. rewrite map_app. simpl. now rewrite last_last.
      * repeat split.
Qed.

Lemma create_records_payload_witness :
  fst (run (vm_create cog_settings alice "sixth" "ubuntu-22.04" 2048 2 32 (Some "pve"))
           (world_of connected_client five_vms creation_answers))
    = Ok (VMCreated "sixth" (JNum 106) (JStr "Ubuntu 22.04 LTS") (JStr "pve")).
Proof.
  exact (proj1 (create_records_payload cog_settings alice "sixth" "ubuntu-22.04" 2048 2 32
    _ _ (world_of connected_client five_vms creation_answers)
    (os_template "Ubuntu 22.04 LTS" "ubuntu-22.04-standard_22.04-1_amd64.tar.zst"
       1024 20 "ubuntu"
     ++ [("template_file", JStr "ubuntu-22.04-standard_22.04-1_amd64.tar.zst")])
    [("data", JNum 106)] [("data", JStr "UPID:pve:create")]
    1024 1 20 (JStr "ubuntu-22.04-standard_22.04-1_amd64.tar.zst")
    (JStr "Ubuntu 22.04 LTS") (JNum 106)
    eq_refl eq_refl eq_refl eq_refl eq_refl eq_refl eq_refl
    ltac:(lia) ltac:(lia) ltac:(lia) eq_refl eq_refl eq_refl (fun _ => eq_refl))).
Defined.

(** ** An id that could not be checked *)

(** X23.  [check_vmid_exists] cannot tell an id that is free from an id
    that could not be checked: it lists the VMs node by node, and when the
    first node listed cannot be reached it answers [False] after these two
    requests, without asking any of the other nodes. *)
Theorem check_vmid_unreachable_node (vmid : Z) (w : World) (fields : list (string * json))
  (first : json) (rest : list json) (node_name : json) :
  session (proxmox w) = SessionOpen ->
  remote w (List.length (http_log w)) (api_request (proxmox w) "GET" [Lit "nodes"] None)
    = HttpResponse 200 (Some (JObj fields)) ->
  dict_lookup fields "data" = Some (JArr (first :: rest)) ->
  py_getitem first "node" = Ok node_name ->
  truthy node_name = true ->
  remote w (S (List.length (http_log w))) (qemu_request (proxmox w) node_name)
    = TransportFailure ->
  fst (run (check_vmid_exists vmid) w) = Ok false /\
  http_log (snd (run (check_vmid_exists vmid) w)) =
    http_log w ++ [api_request (proxmox w) "GET" [Lit "nodes"] None;
                   qemu_request (proxmox w) node_name].
Proof.
  intros Hs Hr Hd Hn Ht Hfail.
  assert (Hrun : run (check_vmid_exists vmid) w =
            (Ok false,
             snd (send (qemu_request (proxmox w) node_name)
                       (snd (send (api_request (proxmox w) "GET" [Lit "nodes"] None) w))))).
  { unfold check_vmid_exists, check_vmid_exists_body.
    rewrite run_try_except, run_bind. unfold get_nodes, request_data at 1.
    rewrite run_bind, make_request_open, Hr by assumption.
    simpl read_response. cbv iota. rewrite run_lift. unfold py_get at 1. rewrite Hd.
    rewrite run_bind, run_lift. cbn [py_iter vmid_on_nodes]. rewrite Hn.
    rewrite run_bind, run_lift, run_bind. unfold get_vms. rewrite Ht.
    unfold request_data. rewrite run_bind, make_request_open by exact Hs.
    cbn [send snd http_log remote proxmox]. rewrite length_app, Nat.add_comm.
    cbn [List.length Nat.add]. unfold qemu_request in Hfail. rewrite Hfail. reflexivity. }
  rewrite Hrun. split; [reflexivity |]. simpl. now rewrite <- app_assoc.
Qed.

Lemma check_vmid_unreachable_node_witness :
  fst (run (check_vmid_exists 100)
    (world_of connected_client empty_db
       (answers [HttpResponse 200
                   (Some (JObj [("data", JArr [JObj [("node", JStr "pve1")];
                                               JObj [("node", JStr "pve2")]])]));
                 TransportFailure;
                 HttpResponse 200
                   (Some (JObj [("data", JArr [JObj [("vmid", JNum 100)]])]))])))
  = Ok false.
Proof.
  exact (proj1 (check_vmid_unreachable_node 100
    (world_of connected_client empty_db
       (answers [HttpResponse 200
                   (Some (JObj [("data", JArr [JObj [("node", JStr "pve1")];
                                               JObj [("node", JStr "pve2")]])]));
                 TransportFailure;
                 HttpResponse 200
                   (Some (JObj [("data", JArr [JObj [("vmid", JNum 100)]])]))]))
    [("data", JArr [JObj [("node", JStr "pve1")]; JObj [("node", JStr "pve2")]])]
    (JObj [("node", JStr "pve1")]) [JObj [("node", JStr "pve2")]] (JStr "pve1")
    eq_refl eq_refl eq_refl eq_refl eq_refl eq_refl)).
Defined.
